(** * Landing.tsx: pagination and cross-page selection

    A shallow embedding of [src/pages/Landing.tsx]: the paged fetches
    ([fetchArtworksByPage], [fetchAdditionalPages]), the bulk selection
    handler ([handleRowSelection]), the page-change handler
    ([handlePageChange]) and the table's selection callback
    ([onSelectionChange]), followed by the properties of the
    specification that concern them.

    Conventions of the embedding.
    - Values that come out of [response.json()] are dynamically typed, so
      they are embedded as [JsVal]; TypeScript annotations are erased at
      run time and do not constrain them.
    - JavaScript numbers are embedded as [Z]: every number the component
      computes with (identifiers, counts, page numbers, row offsets) is an
      integer, and integer arithmetic on doubles is exact below 2^53.  The
      two divisions of the source are taken in [Q], exactly; for page
      numbers and totals far below 2^49 the rounded quotient of two
      doubles compares and floors the same way.
    - Objects and arrays carry their reference identity, because [Map]
      compares object keys by reference.
    - A handler is a computation in the monad [M]: it may run out of fuel
      (only the [while] loop consumes fuel), it completes normally or by a
      thrown exception / rejected promise, and it leaves a trace of the
      effects it performed, in order: HTTP requests and React state-setter
      calls.  Handlers read the state of the render they were created in
      (closure snapshot); setters only enqueue, which is what the trace
      records. *)

From Stdlib Require Import ZArith QArith Qround List String Bool Lia.
Import ListNotations.
Close Scope Q_scope.
Open Scope Z_scope.

(** ** Run-time values *)

(** Reference identity of an object or array (its allocation). *)
Definition ref := positive.

(** The values [JSON.parse] produces, plus [undefined] (the value of a
    missing property). *)
#[warnings="-register-all"]
Inductive JsVal : Type :=
| VUndefined
| VNull
| VBool (b : bool)
| VNum (n : Z)
| VStr (s : string)
| VArr (r : ref) (elems : list JsVal)
| VObj (r : ref) (props : list (string * JsVal)).

(** What a [throw] / promise rejection carries. *)
Inductive JsError : Type :=
| FetchRejected   (* [fetch] rejected: transport failure *)
| JsonRejected    (* [response.json()] rejected: body is not JSON *)
| TypeError.      (* property read on [undefined] or [null] *)

Inductive Result (A : Type) : Type :=
| Ok (a : A)
| Throw (e : JsError).
Arguments Ok {A} a.
Arguments Throw {A} e.

(** Own-property lookup in a parsed object. *)
Fixpoint lookup_prop (props : list (string * JsVal)) (k : string) : JsVal :=
  match props with
  | [] => VUndefined
  | (k', v) :: rest => if String.eqb k' k then v else lookup_prop rest k
  end.

(** [v.k] for the property names the component reads ([data],
    [pagination], [total], [id]): none of them is an inherited or an
    array/string built-in property, so a read on anything but an object
    gives [undefined], and a read on [undefined] or [null] throws. *)
Definition getProp (v : JsVal) (k : string) : Result JsVal :=
  match v with
  | VUndefined | VNull => Throw TypeError
  | VObj _ props => Ok (lookup_prop props k)
  | _ => Ok VUndefined
  end.

(** SameValueZero, the key comparison of [Map]: by value on primitives,
    by reference on objects and arrays. *)
Definition sameValueZero (a b : JsVal) : bool :=
  match a, b with
  | VUndefined, VUndefined => true
  | VNull, VNull => true
  | VBool x, VBool y => Bool.eqb x y
  | VNum x, VNum y => x =? y
  | VStr x, VStr y => String.eqb x y
  | VArr r _, VArr r' _ => Pos.eqb r r'
  | VObj r _, VObj r' _ => Pos.eqb r r'
  | _, _ => false
  end.

(** ** Arrays *)

(** [a.concat(v)]: an array argument is spread, anything else is
    appended as a single element. *)
Definition js_concat (a : list JsVal) (v : JsVal) : list JsVal :=
  match v with
  | VArr _ elems => a ++ elems
  | _ => a ++ [v]
  end.

(** [a.slice(0, e)]: a negative [e] counts from the end; the bound is
    clamped to the array. *)
Definition js_slice0 (a : list JsVal) (e : Z) : list JsVal :=
  let len := Z.of_nat (List.length a) in
  let stop := if e <? 0 then Z.max (len + e) 0 else Z.min e len in
  firstn (Z.to_nat stop) a.

(** ** Map<number, Artwork>

    A JavaScript [Map] iterates in insertion order; an association list
    in that order. *)
Definition JsMap := list (JsVal * JsVal).

(** [m.set(k, v)]: an existing key keeps its place and gets the new
    value, a new key goes to the end. *)
Fixpoint map_set (m : JsMap) (k v : JsVal) : JsMap :=
  match m with
  | [] => [(k, v)]
  | (k', v') :: rest =>
      if sameValueZero k' k then (k', v) :: rest
      else (k', v') :: map_set rest k v
  end.

(** [m.set(k, v)] for each entry [(k, v)], in order. *)
Definition set_all (m : JsMap) (entries : list (JsVal * JsVal)) : JsMap :=
  fold_left (fun m kv => map_set m (fst kv) (snd kv)) entries m.

(** [new Map(entries)]: the entries are [set] one after the other into
    an empty map. *)
Definition map_new (entries : list (JsVal * JsVal)) : JsMap :=
  set_all [] entries.

(** [Array.from(m.values())]. *)
Definition map_values (m : JsMap) : list JsVal := List.map snd m.

Definition map_keys (m : JsMap) : list JsVal := List.map fst m.

(** [rows.forEach((artwork) => m.set(artwork.id, artwork))]; the read of
    [artwork.id] throws on an [undefined] or [null] element and aborts
    the iteration. *)
Fixpoint forEach_set (m : JsMap) (rows : list JsVal) : Result JsMap :=
  match rows with
  | [] => Ok m
  | artwork :: rest =>
      match getProp artwork "id"%string with
      | Throw e => Throw e
      | Ok key => forEach_set (map_set m key artwork) rest
      end
  end.

(** ** Component state *)

(** The [useState] cells of [Landing]. *)
Record State : Type := mkState {
  artworks : list JsVal;          (* useState<Artwork[]>([]) *)
  currentPage : Z;                (* useState(1) *)
  firstRow : Z;                   (* useState(0) *)
  totalRecords : Z;               (* useState(0) *)
  selectedArtworks : JsMap;       (* useState<Map<number, Artwork>>(new Map()) *)
  showFilter : bool;              (* useState(false) *)
  rowsToFetch : option Z          (* useState<number | null>(null) *)
}.

Definition initial_state : State :=
  mkState [] 1 0 0 [] false None.

(** Observable effects of a handler, in the order they happen. *)
Inductive Effect : Type :=
| Request (page : Z)                  (* fetch(`...artworks?page=${page}`) *)
| SetArtworks (v : JsVal)
| SetTotalRecords (v : JsVal)
| SetCurrentPage (n : Z)
| SetFirstRow (n : Z)
| SetSelectedArtworks (m : JsMap)
| SetShowFilter (b : bool).

(** The state React renders next.  [setArtworks] and [setTotalRecords]
    receive untyped JSON; the typed cells of [State] can only hold an
    array, respectively a number, so any other argument has no image in
    [State] ([None]). *)
Definition apply_effect (s : State) (e : Effect) : option State :=
  match e with
  | Request _ => Some s
  | SetArtworks (VArr _ elems) =>
      Some (mkState elems (currentPage s) (firstRow s) (totalRecords s)
                    (selectedArtworks s) (showFilter s) (rowsToFetch s))
  | SetArtworks _ => None
  | SetTotalRecords (VNum n) =>
      Some (mkState (artworks s) (currentPage s) (firstRow s) n
                    (selectedArtworks s) (showFilter s) (rowsToFetch s))
  | SetTotalRecords _ => None
  | SetCurrentPage n =>
      Some (mkState (artworks s) n (firstRow s) (totalRecords s)
                    (selectedArtworks s) (showFilter s) (rowsToFetch s))
  | SetFirstRow n =>
      Some (mkState (artworks s) (currentPage s) n (totalRecords s)
                    (selectedArtworks s) (showFilter s) (rowsToFetch s))
  | SetSelectedArtworks m =>
      Some (mkState (artworks s) (currentPage s) (firstRow s) (totalRecords s)
                    m (showFilter s) (rowsToFetch s))
  | SetShowFilter b =>
      Some (mkState (artworks s) (currentPage s) (firstRow s) (totalRecords s)
                    (selectedArtworks s) b (rowsToFetch s))
  end.

Fixpoint apply_effects (s : State) (es : list Effect) : option State :=
  match es with
  | [] => Some s
  | e :: rest =>
      match apply_effect s e with
      | Some s' => apply_effects s' rest
      | None => None
      end
  end.

(** The page numbers requested, in order. *)
Fixpoint requests (es : list Effect) : list Z :=
  match es with
  | [] => []
  | Request p :: rest => p :: requests rest
  | _ :: rest => requests rest
  end.

(** The state-setter calls, in order. *)
Fixpoint setter_calls (es : list Effect) : list Effect :=
  match es with
  | [] => []
  | Request _ :: rest => setter_calls rest
  | e :: rest => e :: setter_calls rest
  end.

(** ** The remote API *)

(** What [response.json()] settles to. *)
Inductive Body : Type :=
| InvalidJson
| Json (data : JsVal).

(** What [fetch(url)] settles to.  An HTTP error status is still a
    response. *)
Inductive FetchOutcome : Type :=
| NetworkFailure
| Response (body : Body).

(** The remote source: the outcome of requesting a page. *)
Definition Remote := Z -> FetchOutcome.

(** ** The handler monad *)

(** A finished run: how it completed and what it did. *)
Definition Run (A : Type) : Type := (Result A * list Effect)%type.

(** [None]: the fuel given to the [while] loop ran out. *)
Definition M (A : Type) : Type := option (Run A).

Definition ret {A} (a : A) : M A := Some (Ok a, []).

Definition throw {A} (e : JsError) : M A := Some (Throw e, []).

Definition out_of_fuel {A} : M A := None.

Definition emit (e : Effect) : M unit := Some (Ok tt, [e]).

Definition lift {A} (r : Result A) : M A := Some (r, []).

Definition bind {A B} (c : M A) (k : A -> M B) : M B :=
  match c with
  | None => None
  | Some (Throw e, tr) => Some (Throw e, tr)
  | Some (Ok a, tr) =>
      match k a with
      | None => None
      | Some (r, tr') => Some (r, tr ++ tr')
      end
  end.

Declare Scope js_scope.
Delimit Scope js_scope with js.
Notation "x <- c ;; k" := (bind c (fun x => k))
  (at level 61, c at next level, right associativity) : js_scope.
Notation "c ;; k" := (bind c (fun _ => k))
  (at level 61, right associativity) : js_scope.
Open Scope js_scope.

(** [await fetch(`https://api.artic.edu/api/v1/artworks?page=${page}`)] *)
Definition await_fetch (remote : Remote) (page : Z) : M Body :=
  emit (Request page) ;;
  match remote page with
  | NetworkFailure => throw FetchRejected
  | Response body => ret body
  end.

(** [await response.json()] *)
Definition await_json (response : Body) : M JsVal :=
  match response with
  | InvalidJson => throw JsonRejected
  | Json data => ret data
  end.

(** ** Landing.tsx *)

(** [nextPage <= totalRecords / 12], the division taken exactly. *)
Definition page_within_total (nextPage totalRecords : Z) : bool :=
  Qle_bool (inject_Z nextPage) (Qmake totalRecords 12).

(** Lines 36-43.
<<
  const fetchArtworksByPage = (pageNumber: number) => {
    fetch(`https://api.artic.edu/api/v1/artworks?page=${pageNumber}`)
      .then((response) => response.json())
      .then((data) => {
        setArtworks(data.data);
        setTotalRecords(data.pagination.total);
      });
  };
>>
    The promise chain has no [catch]: a rejection stays unhandled. *)
Definition fetchArtworksByPage (remote : Remote) (pageNumber : Z) : M unit :=
  response <- await_fetch remote pageNumber ;;
  data <- await_json response ;;
  data_data <- lift (getProp data "data"%string) ;;
  emit (SetArtworks data_data) ;;
  pagination <- lift (getProp data "pagination"%string) ;;
  total <- lift (getProp pagination "total"%string) ;;
  emit (SetTotalRecords total).

(** Lines 57-67, the loop of [fetchAdditionalPages].
<<
    while (
      fetchedArtworks.length < rowsNeeded &&
      nextPage <= totalRecords / 12
    ) {
      const response = await fetch(
        `https://api.artic.edu/api/v1/artworks?page=${nextPage}`
      );
      const data = await response.json();
      fetchedArtworks = fetchedArtworks.concat(data.data);
      nextPage++;
    }
>>
    One unit of fuel per iteration of the body. *)
Fixpoint while_loop (fuel : nat) (remote : Remote) (rowsNeeded totalRecords : Z)
    (fetchedArtworks : list JsVal) (nextPage : Z) : M (list JsVal) :=
  if (Z.of_nat (List.length fetchedArtworks) <? rowsNeeded)
     && page_within_total nextPage totalRecords
  then
    match fuel with
    | O => out_of_fuel
    | S fuel' =>
        response <- await_fetch remote nextPage ;;
        data <- await_json response ;;
        data_data <- lift (getProp data "data"%string) ;;
        while_loop fuel' remote rowsNeeded totalRecords
                   (js_concat fetchedArtworks data_data) (nextPage + 1)
    end
  else ret fetchedArtworks.

(** Lines 50-70.  [artworks] and [totalRecords] are read from the
    closure, [currentPage] is the parameter. *)
Definition fetchAdditionalPages (fuel : nat) (remote : Remote) (s : State)
    (rowsNeeded currentPage : Z) : M (list JsVal) :=
  let fetchedArtworks := artworks s in
  let nextPage := currentPage + 1 in
  fetchedArtworks <- while_loop fuel remote rowsNeeded (totalRecords s)
                                fetchedArtworks nextPage ;;
  ret (js_slice0 fetchedArtworks rowsNeeded).

(** Lines 78-84 of [handleRowSelection]: the rows that will be merged.
<<
    let rowsNeeded = rowsToFetch;
    let selectedRows = [...artworks];
    if (rowsNeeded > artworks.length) {
      selectedRows = await fetchAdditionalPages(rowsNeeded, currentPage);
    }
>> *)
Definition selectedRows (fuel : nat) (remote : Remote) (s : State)
    (rowsNeeded : Z) : M (list JsVal) :=
  let selectedRows := artworks s in
  if rowsNeeded >? Z.of_nat (List.length (artworks s))
  then fetchAdditionalPages fuel remote s rowsNeeded (currentPage s)
  else ret selectedRows.

(** Lines 75-93.
<<
  const handleRowSelection = async () => {
    if (!rowsToFetch) return;
    ...
    const updatedSelection = new Map(selectedArtworks);
    selectedRows.forEach((artwork) =>
      updatedSelection.set(artwork.id, artwork)
    );
    setSelectedArtworks(updatedSelection);
    setShowFilter(false);
  };
>> *)
Definition handleRowSelection (fuel : nat) (remote : Remote) (s : State) : M unit :=
  match rowsToFetch s with
  | None => ret tt
  | Some rowsNeeded =>
      if rowsNeeded =? 0 then ret tt
      else
        rows <- selectedRows fuel remote s rowsNeeded ;;
        updatedSelection <- lift (forEach_set (map_new (selectedArtworks s)) rows) ;;
        emit (SetSelectedArtworks updatedSelection) ;;
        emit (SetShowFilter false)
  end.

(** The paginator's page event: [event.first], [event.rows].  The
    widgets are given [rows={12}]; a page size is positive. *)
Record PageEvent : Type := mkPageEvent {
  first : Z;
  rows : positive
}.

(** Lines 99-102.
<<
  const handlePageChange = (event: any) => {
    setFirstRow(event.first);
    setCurrentPage(Math.floor(event.first / event.rows) + 1);
  };
>> *)
Definition handlePageChange (event : PageEvent) : M unit :=
  emit (SetFirstRow (first event)) ;;
  emit (SetCurrentPage (Qfloor (Qmake (first event) (rows event)) + 1)).

(** Lines 154-160, the table's [onSelectionChange]; [value] is [e.value].
<<
          const newSelectedMap = new Map<number, Artwork>();
          e.value.forEach((artwork: Artwork) =>
            newSelectedMap.set(artwork.id, artwork)
          );
          setSelectedArtworks(newSelectedMap);
>> *)
Definition onSelectionChange (value : list JsVal) : M unit :=
  newSelectedMap <- lift (forEach_set (map_new []) value) ;;
  emit (SetSelectedArtworks newSelectedMap).

(** Line 153, what the table is given as [selection]:
    [Array.from(selectedArtworks.values())]. *)
Definition selection (s : State) : list JsVal :=
  map_values (selectedArtworks s).

(** ** Records and a sample collection *)

Module Artwork.
(** Modelled from the spec: the declaration [../types/Artwork] is not
    part of the sources at hand.  A record has a unique identity key
    and a fixed set of display attributes: title, origin, attribution
    text, free-text annotation and two numeric date bounds.  The field
    names are the ones the table's columns and [dataKey] use. *)
Record t : Type := mk {
  id : Z;
  title : string;
  place_of_origin : string;
  artist_display : string;
  inscriptions : string;
  date_start : Z;
  date_end : Z
}.

(** The object [JSON.parse] builds for a record, allocated at [r]. *)
Definition to_js (r : ref) (a : t) : JsVal :=
  VObj r [ ("id"%string, VNum (id a));
           ("title"%string, VStr (title a));
           ("place_of_origin"%string, VStr (place_of_origin a));
           ("artist_display"%string, VStr (artist_display a));
           ("inscriptions"%string, VStr (inscriptions a));
           ("date_start"%string, VNum (date_start a));
           ("date_end"%string, VNum (date_end a)) ].
End Artwork.

(** A collection of 30 records with identifiers 1..30, served 12 per
    page: pages 1 and 2 are full, page 3 holds the last 6, every later
    page is empty. *)
Definition sample_artwork (i : nat) : JsVal :=
  Artwork.to_js (Pos.of_nat (100 + i))
    (Artwork.mk (Z.of_nat i) "Untitled" "France" "Unknown" "signed" 1900 1901).

Definition sample_rows (from count : nat) : list JsVal :=
  List.map sample_artwork (seq from count).

Definition page_body (r : ref) (rows : list JsVal) (total : Z) : JsVal :=
  VObj r [ ("pagination"%string, VObj (Pos.succ r) [ ("total"%string, VNum total) ]);
           ("data"%string, VArr (Pos.succ (Pos.succ r)) rows) ].

Definition sample_remote : Remote := fun page =>
  if page =? 1 then Response (Json (page_body 10%positive (sample_rows 1 12) 30))
  else if page =? 2 then Response (Json (page_body 20%positive (sample_rows 13 12) 30))
  else if page =? 3 then Response (Json (page_body 30%positive (sample_rows 25 6) 30))
  else Response (Json (page_body 40%positive [] 30)).

(** Page 1 of the sample collection is on screen, nothing selected, and
    [n] has been typed into the "select rows" box. *)
Definition sample_state (n : Z) : State :=
  mkState (sample_rows 1 12) 1 0 30 [] true (Some n).

(** The sample collection behind a transport that fails on page 2. *)
Definition failing_remote : Remote := fun page =>
  if page =? 2 then NetworkFailure else sample_remote page.

(** A body without the [data] array: [{ pagination: { total: 7 } }]. *)
Definition body_without_data : JsVal :=
  VObj 1%positive [ ("pagination"%string, VObj 2%positive [ ("total"%string, VNum 7) ]) ].

(** A body without the pagination total: [{ data: [], pagination: {} }]. *)
Definition body_without_total : JsVal :=
  VObj 1%positive [ ("data"%string, VArr 2%positive []);
                    ("pagination"%string, VObj 3%positive []) ].

(** A body with rows but without [pagination]: [{ data: [...] }]. *)
Definition body_without_pagination : JsVal :=
  VObj 1%positive [ ("data"%string, VArr 2%positive (sample_rows 13 12)) ].





(** ** Auxiliary definitions for the statements *)

(** The consecutive page numbers [p, p+1, ..., p+k-1]. *)
Fixpoint pages_from (p : Z) (k : nat) : list Z :=
  match k with
  | O => []
  | S k' => p :: pages_from (p + 1) k'
  end.

(** Lines 61-65 as a value: what one iteration of the loop obtains from
    the remote source, [data.data], or the exception that ends it. *)
Definition page_result (o : FetchOutcome) : Result JsVal :=
  match o with
  | NetworkFailure => Throw FetchRejected
  | Response InvalidJson => Throw JsonRejected
  | Response (Json data) => getProp data "data"%string
  end.

(** The fetch of a page fails: the iteration that requests it throws. *)
Definition fetch_fails (o : FetchOutcome) : bool :=
  match page_result o with
  | Throw _ => true
  | Ok _ => false
  end.

(** [data.data] of a page, for pages whose fetch does not fail. *)
Definition page_data (remote : Remote) (page : Z) : JsVal :=
  match page_result (remote page) with
  | Ok v => v
  | Throw _ => VUndefined
  end.


(** The number of iterations the loop bound allows from [currentPage]. *)
Definition pages_left (totalRecords currentPage : Z) : nat :=
  Z.to_nat (totalRecords / 12 - currentPage).

(** The expected shape of a response body: a [data] array and a numeric
    [pagination.total]. *)
Definition well_shaped (data : JsVal) : bool :=
  match getProp data "data"%string, getProp data "pagination"%string with
  | Ok (VArr _ _), Ok pagination =>
      match getProp pagination "total"%string with
      | Ok (VNum _) => true
      | _ => false
      end
  | _, _ => false
  end.

(** The identity keys of a sequence of rows, [artwork.id] for each. *)
Fixpoint artwork_ids (rows : list JsVal) : Result (list JsVal) :=
  match rows with
  | [] => Ok []
  | artwork :: rest =>
      match getProp artwork "id"%string with
      | Throw e => Throw e
      | Ok key =>
          match artwork_ids rest with
          | Throw e => Throw e
          | Ok keys => Ok (key :: keys)
          end
      end
  end.

(** [k] is one of [keys], as [Map] compares keys. *)
Definition has_key (keys : list JsVal) (k : JsVal) : bool :=
  existsb (fun k' => sameValueZero k' k) keys.

(** The keys are pairwise distinct, as [Map] compares keys. *)
Fixpoint distinct_keys (keys : list JsVal) : bool :=
  match keys with
  | [] => true
  | k :: rest => negb (has_key rest k) && distinct_keys rest
  end.

(** The key order after identities [ids] have been [set] one after the
    other: an identity that is a key already changes nothing, a new one
    goes to the end. *)
Fixpoint append_new (keys ids : list JsVal) : list JsVal :=
  match ids with
  | [] => keys
  | k :: rest => append_new (if has_key keys k then keys else keys ++ [k]) rest
  end.

(** [m.get(k)]: the value stored under the first key equal to [k]. *)
Fixpoint map_get (m : JsMap) (k : JsVal) : option JsVal :=
  match m with
  | [] => None
  | (k', v) :: rest => if sameValueZero k' k then Some v else map_get rest k
  end.

(** The last of [rows] whose [id] equals [k] as [Map] compares keys, if
    there is one. *)
Fixpoint latest_row (rows : list JsVal) (k : JsVal) : option JsVal :=
  match rows with
  | [] => None
  | artwork :: rest =>
      match latest_row rest k with
      | Some later => Some later
      | None =>
          match getProp artwork "id"%string with
          | Ok key => if sameValueZero key k then Some artwork else None
          | Throw _ => None
          end
      end
  end.

(** ** Renders and the page effect *)

(** The state of the render that follows a handler: the setter calls of
    its run are applied in order, also when the handler threw after
    making them. *)
Definition next_state (s : State) (run : M unit) : option State :=
  match run with
  | Some (_, tr) => apply_effects s tr
  | None => None
  end.

(** Lines 28-30.
<<
  useEffect(() => {
    fetchArtworksByPage(currentPage);
  }, [currentPage]);
>>
    After the render of [next], which follows the render of [prev], the
    effect runs when the dependency [currentPage] has changed. *)
Definition useEffect_currentPage (remote : Remote) (prev next : State) : M unit :=
  if currentPage next =? currentPage prev then ret tt
  else fetchArtworksByPage remote (currentPage next).

(** A page event from the paginator: [handlePageChange], the render it
    causes, the page effect of that render and the render after it.  The
    result is the run of the two steps and the state at the end. *)
Definition navigate (remote : Remote) (s : State) (event : PageEvent)
  : option (Run unit * State) :=
  match handlePageChange event with
  | Some (_, tr1) =>
      match apply_effects s tr1 with
      | Some s1 =>
          match useEffect_currentPage remote s s1 with
          | Some (r, tr2) =>
              match apply_effects s1 tr2 with
              | Some s2 => Some ((r, tr1 ++ tr2), s2)
              | None => None
              end
          | None => None
          end
      | None => None
      end
  | None => None
  end.

(** * Properties *)

(** ** Key comparison *)

Lemma sameValueZero_refl (k : JsVal) : sameValueZero k k = true.
Proof.
  destruct k; simpl; auto using Z.eqb_refl, String.eqb_refl, Pos.eqb_refl.
  destruct b; reflexivity.
Qed.

Lemma sameValueZero_sym (a b : JsVal) : sameValueZero a b = sameValueZero b a.
Proof.
  destruct a, b; simpl; auto using Z.eqb_sym, String.eqb_sym, Pos.eqb_sym.
  destruct b, b0; reflexivity.
Qed.

Lemma sameValueZero_trans (a b c : JsVal) :
  sameValueZero a b = true -> sameValueZero b c = true -> sameValueZero a c = true.
Proof.
  destruct a, b; simpl; try discriminate; destruct c; simpl; try discriminate; auto.
  - destruct b, b0, b1; auto.
  - rewrite !Z.eqb_eq; congruence.
  - rewrite !String.eqb_eq; congruence.
  - rewrite !Pos.eqb_eq; congruence.
  - rewrite !Pos.eqb_eq; congruence.
Qed.

(** ** The loop bound *)

(** The exact comparison [nextPage <= totalRecords / 12] on integers. *)
Lemma page_within_total_spec (nextPage totalRecords : Z) :
  page_within_total nextPage totalRecords = true <-> 12 * nextPage <= totalRecords.
Proof.
  unfold page_within_total, Qle_bool.
  cbn [Qnum Qden inject_Z]. rewrite Z.leb_le. lia.
Qed.

(** The same bound through the integer quotient: only whole pages count. *)
Lemma page_within_total_div (nextPage totalRecords : Z) :
  page_within_total nextPage totalRecords = true <-> nextPage <= totalRecords / 12.
Proof.
  rewrite page_within_total_spec.
  pose proof (Z.div_mod totalRecords 12 ltac:(lia)) as Hdm.
  pose proof (Z.mod_pos_bound totalRecords 12 ltac:(lia)) as Hb.
  lia.
Qed.

(** ** Effects *)


Lemma setter_calls_app (a b : list Effect) :
  setter_calls (a ++ b) = setter_calls a ++ setter_calls b.
Proof.
  induction a as [|e a IH]; simpl; [reflexivity|].
  destruct e; simpl; rewrite IH; reflexivity.
Qed.

Lemma requests_map_Request (ps : list Z) : requests (List.map Request ps) = ps.
Proof. induction ps; simpl; congruence. Qed.

Lemma setter_calls_map_Request (ps : list Z) : setter_calls (List.map Request ps) = [].
Proof. induction ps; simpl; congruence. Qed.

(** Requests do not touch the component state. *)
Lemma apply_effects_map_Request (s : State) (ps : list Z) :
  apply_effects s (List.map Request ps) = Some s.
Proof. induction ps; simpl; auto. Qed.

(** ** The loop, one iteration at a time *)

Lemma while_loop_O remote rowsNeeded total fetched nextPage :
  while_loop 0 remote rowsNeeded total fetched nextPage =
  if (Z.of_nat (List.length fetched) <? rowsNeeded) && page_within_total nextPage total
  then None else Some (Ok fetched, []).
Proof. reflexivity. Qed.

Lemma while_loop_S fuel remote rowsNeeded total fetched nextPage :
  while_loop (S fuel) remote rowsNeeded total fetched nextPage =
  if (Z.of_nat (List.length fetched) <? rowsNeeded) && page_within_total nextPage total
  then
    match page_result (remote nextPage) with
    | Throw e => Some (Throw e, [Request nextPage])
    | Ok data_data =>
        match while_loop fuel remote rowsNeeded total
                         (js_concat fetched data_data) (nextPage + 1) with
        | None => None
        | Some (r, tr) => Some (r, Request nextPage :: tr)
        end
    end
  else Some (Ok fetched, []).
Proof.
  simpl.
  destruct ((Z.of_nat (List.length fetched) <? rowsNeeded)
            && page_within_total nextPage total); [|reflexivity].
  unfold await_fetch, page_result.
  destruct (remote nextPage) as [|[|data]]; simpl; try reflexivity.
  destruct (getProp data "data"); simpl; [|reflexivity].
  destruct (while_loop fuel remote rowsNeeded total (js_concat fetched a) (nextPage + 1))
    as [[r tr]|]; reflexivity.
Qed.

(** What a finished run of the loop looks like: it requested [k]
    consecutive pages starting at [nextPage], all within the bound; it
    completed normally exactly when none of those fetches failed, and
    then holds the initial rows followed by the pages' data, in order. *)
Lemma while_loop_run fuel : forall remote rowsNeeded total fetched nextPage r tr,
  while_loop fuel remote rowsNeeded total fetched nextPage = Some (r, tr) ->
  exists k : nat,
    tr = List.map Request (pages_from nextPage k) /\
    (forall p, In p (pages_from nextPage k) -> p <= total / 12) /\
    match r with
    | Ok rows =>
        rows = fold_left js_concat
                 (List.map (page_data remote) (pages_from nextPage k)) fetched /\
        (forall p, In p (pages_from nextPage k) -> fetch_fails (remote p) = false)
    | Throw e =>
        exists k', k = S k' /\
          page_result (remote (nextPage + Z.of_nat k')) = Throw e /\
          (forall p, In p (pages_from nextPage k') -> fetch_fails (remote p) = false)
    end.
Proof.
  induction fuel as [|fuel IH]; intros remote rowsNeeded total fetched nextPage r tr.
  - rewrite while_loop_O.
    destruct (_ && _); [discriminate|].
    intros H; inversion H; subst. exists O; simpl. repeat split; tauto.
  - rewrite while_loop_S.
    destruct (_ && _) eqn:Hcond.
    + apply andb_true_iff in Hcond as [_ Hpage].
      apply page_within_total_div in Hpage.
      destruct (page_result (remote nextPage)) as [d|e] eqn:Hres.
      * destruct (while_loop fuel remote rowsNeeded total (js_concat fetched d) (nextPage + 1))
          as [[r' tr']|] eqn:Hrec; [|discriminate].
        intros H; inversion H; subst.
        apply IH in Hrec as (k & -> & Hbound & Hr).
        assert (Hok : fetch_fails (remote nextPage) = false)
          by (unfold fetch_fails; rewrite Hres; reflexivity).
        exists (S k); simpl. split; [reflexivity|]. split.
        { intros p [<-|Hp]; auto. }
        destruct r as [rows|e].
        { destruct Hr as (-> & Hall). split.
          - replace (page_data remote nextPage) with d
              by (unfold page_data; rewrite Hres; reflexivity).
            reflexivity.
          - intros p [<-|Hp]; auto. }
        { destruct Hr as (k' & -> & Hthrow & Hall).
          exists (S k'). split; [reflexivity|]. split.
          - replace (nextPage + Z.of_nat (S k')) with (nextPage + 1 + Z.of_nat k') by lia.
            assumption.
          - simpl. intros p [<-|Hp]; auto. }
      * intros H; inversion H; subst.
        exists 1%nat; simpl. split; [reflexivity|]. split.
        { intros p [<-|[]]; auto. }
        exists O. split; [reflexivity|]. split.
        { rewrite Z.add_0_r. assumption. }
        { simpl; tauto. }
    + intros H; inversion H; subst. exists O; simpl. repeat split; tauto.
Qed.

(** Every page of a consecutive run lies in its range. *)
Lemma pages_from_In (k : nat) : forall p q,
  In q (pages_from p k) <-> p <= q < p + Z.of_nat k.
Proof.
  induction k as [|k IH]; intros p q; simpl.
  - lia.
  - rewrite IH. lia.
Qed.

Lemma pages_from_length (k : nat) : forall p, List.length (pages_from p k) = k.
Proof. induction k; simpl; auto. Qed.


(** The loop returns once it is given one unit of fuel per page that the
    bound still allows, whatever the remote source answers. *)
Lemma while_loop_terminates fuel : forall remote rowsNeeded total fetched nextPage,
  (Z.to_nat (total / 12 + 1 - nextPage) <= fuel)%nat ->
  exists run, while_loop fuel remote rowsNeeded total fetched nextPage = Some run.
Proof.
  induction fuel as [|fuel IH]; intros remote rowsNeeded total fetched nextPage Hfuel.
  - rewrite while_loop_O.
    destruct (_ && _) eqn:Hcond; [|eauto].
    apply andb_true_iff in Hcond as [_ Hpage].
    apply page_within_total_div in Hpage. lia.
  - rewrite while_loop_S.
    destruct (_ && _) eqn:Hcond; [|eauto].
    apply andb_true_iff in Hcond as [_ Hpage].
    apply page_within_total_div in Hpage.
    destruct (page_result (remote nextPage)) as [d|e]; [|eauto].
    destruct (IH remote rowsNeeded total (js_concat fetched d) (nextPage + 1)) as [[r tr] ->];
      [lia|eauto].
Qed.

(** When the loop condition is false the loop returns at once, at any
    fuel. *)
Lemma while_loop_done fuel remote rowsNeeded total fetched nextPage :
  (Z.of_nat (List.length fetched) <? rowsNeeded) && page_within_total nextPage total = false ->
  while_loop fuel remote rowsNeeded total fetched nextPage = Some (Ok fetched, []).
Proof.
  intros Hcond. destruct fuel; [rewrite while_loop_O | rewrite while_loop_S];
    rewrite Hcond; reflexivity.
Qed.

(** The loop reads nothing of a response but [data.data]: remote sources
    that agree there (whatever [pagination.total] they report) give the
    same run. *)
Lemma while_loop_reads_data_only fuel : forall remote remote' rowsNeeded total fetched nextPage,
  (forall p, page_result (remote' p) = page_result (remote p)) ->
  while_loop fuel remote' rowsNeeded total fetched nextPage =
  while_loop fuel remote rowsNeeded total fetched nextPage.
Proof.
  induction fuel as [|fuel IH]; intros remote remote' rowsNeeded total fetched nextPage Hsame.
  - reflexivity.
  - rewrite !while_loop_S, Hsame.
    destruct (_ && _); [|reflexivity].
    destruct (page_result (remote nextPage)); [|reflexivity].
    rewrite (IH remote remote'); auto.
Qed.

(** [fetchAdditionalPages] is its loop followed by the final [slice]. *)
Lemma fetchAdditionalPages_unfold fuel remote s rowsNeeded page :
  fetchAdditionalPages fuel remote s rowsNeeded page =
  match while_loop fuel remote rowsNeeded (totalRecords s) (artworks s) (page + 1) with
  | None => None
  | Some (Ok rows, tr) => Some (Ok (js_slice0 rows rowsNeeded), tr)
  | Some (Throw e, tr) => Some (Throw e, tr)
  end.
Proof.
  unfold fetchAdditionalPages, bind, ret.
  destruct (while_loop _ _ _ _ _ _) as [[[rows|e] tr]|]; try reflexivity.
  rewrite app_nil_r. reflexivity.
Qed.

(** [pages_left] is the fuel the loop of [fetchAdditionalPages] needs. *)
Lemma pages_left_fuel (total page : Z) :
  Z.to_nat (total / 12 + 1 - (page + 1)) = pages_left total page.
Proof. unfold pages_left. f_equal. lia. Qed.

(** ** Termination of the bulk fetch *)

(** C9.  Every call of [fetchAdditionalPages] returns after finitely
    many fetches.  The bound is fixed when the call starts: it is
    computed from the [totalRecords] of the state the call was made in,
    and one unit of fuel per page up to [totalRecords / 12] is enough for
    every remote source.  The call makes at most that many requests, all
    for pages after [currentPage] and within the bound, and its run does
    not depend on anything a response reports besides [data.data], so a
    total that changes between responses cannot prolong the loop. *)
Theorem fetchAdditionalPages_terminates :
  forall (fuel : nat) (remote : Remote) (s : State) (rowsNeeded page : Z),
    (pages_left (totalRecords s) page <= fuel)%nat ->
    exists r tr,
      fetchAdditionalPages fuel remote s rowsNeeded page = Some (r, tr) /\
      (List.length (requests tr) <= pages_left (totalRecords s) page)%nat /\
      (forall p, In p (requests tr) -> page < p <= totalRecords s / 12) /\
      (forall remote' : Remote,
          (forall p, page_result (remote' p) = page_result (remote p)) ->
          fetchAdditionalPages fuel remote' s rowsNeeded page = Some (r, tr)).
Proof.
  intros fuel remote s rowsNeeded page Hfuel.
  rewrite <- pages_left_fuel in Hfuel.
  destruct (while_loop_terminates fuel remote rowsNeeded (totalRecords s) (artworks s)
              (page + 1) Hfuel) as [[r0 tr] Hrun].
  pose proof (while_loop_run _ _ _ _ _ _ _ _ Hrun) as (k & Htr & Hbound & _).
  assert (Hreq : requests tr = pages_from (page + 1) k)
    by (rewrite Htr; apply requests_map_Request).
  assert (Hk : forall p, In p (requests tr) -> page < p <= totalRecords s / 12).
  { intros p Hp. rewrite Hreq in Hp. split; [|auto].
    apply pages_from_In in Hp. lia. }
  assert (Hlen : (List.length (requests tr) <= pages_left (totalRecords s) page)%nat).
  { rewrite Hreq, pages_from_length. unfold pages_left.
    destruct k as [|k]; [lia|].
    assert (Hlast : In (page + 1 + Z.of_nat k) (pages_from (page + 1) (S k)))
      by (apply pages_from_In; lia).
    apply Hbound in Hlast. lia. }
  exists (match r0 with Ok rows => Ok (js_slice0 rows rowsNeeded) | Throw e => Throw e end), tr.
  split; [|split; [exact Hlen|split; [exact Hk|]]].
  - rewrite fetchAdditionalPages_unfold, Hrun. destruct r0; reflexivity.
  - intros remote' Hsame.
    rewrite fetchAdditionalPages_unfold, (while_loop_reads_data_only fuel remote remote'), Hrun by auto.
    destruct r0; reflexivity.
Qed.

Lemma fetchAdditionalPages_terminates_witness :
  (pages_left (totalRecords (sample_state 40)) 1 <= 2)%nat /\
  exists r tr,
    fetchAdditionalPages 2 sample_remote (sample_state 40) 40 1 = Some (r, tr) /\
    (List.length (requests tr) <= pages_left (totalRecords (sample_state 40)) 1)%nat /\
    (forall p, In p (requests tr) -> 1 < p <= totalRecords (sample_state 40) / 12) /\
    (forall remote' : Remote,
        (forall p, page_result (remote' p) = page_result (sample_remote p)) ->
        fetchAdditionalPages 2 remote' (sample_state 40) 40 1 = Some (r, tr)).
Proof.
  assert (Hfuel : (pages_left (totalRecords (sample_state 40)) 1 <= 2)%nat)
    by (vm_compute; lia).
  split; [exact Hfuel|].
  exact (fetchAdditionalPages_terminates 2 sample_remote (sample_state 40) 40 1 Hfuel).
Defined.

(** ** Order of the requests *)





(** ** The bulk selection scenarios *)

(** The fast path of [handleRowSelection]: a count that the loaded page
    covers makes no request, and the rows handed on to the merge are the
    whole loaded page. *)
Lemma selectedRows_fast_path fuel remote s rowsNeeded :
  rowsNeeded <= Z.of_nat (List.length (artworks s)) ->
  selectedRows fuel remote s rowsNeeded = Some (Ok (artworks s), []).
Proof.
  intros Hle. unfold selectedRows.
  destruct (Z.gtb_spec rowsNeeded (Z.of_nat (List.length (artworks s)))); [lia|reflexivity].
Qed.

(** C3.  With 12 rows loaded from page 1 of a collection of 30, asking
    for 20 rows makes exactly one request, for page 2, and yields exactly
    20 rows: the 12 loaded ones followed by the first 8 of page 2. *)
Theorem selectedRows_twenty_of_thirty :
  forall (fuel : nat) (remote : Remote) (s : State) (body : JsVal) (r : ref)
         (page2 : list JsVal),
    (1 <= fuel)%nat ->
    List.length (artworks s) = 12%nat ->
    totalRecords s = 30 ->
    currentPage s = 1 ->
    remote 2 = Response (Json body) ->
    getProp body "data"%string = Ok (VArr r page2) ->
    List.length page2 = 12%nat ->
    selectedRows fuel remote s 20
      = Some (Ok (artworks s ++ firstn 8 page2), [Request 2]) /\
    List.length (artworks s ++ firstn 8 page2) = 20%nat.
Proof.
  intros fuel remote s body r page2 Hfuel Hlen Htotal Hpage Hremote Hdata Hlen2.
  split.
  - unfold selectedRows. rewrite Hlen, Hpage.
    change (20 >? Z.of_nat 12) with true. cbv iota.
    rewrite fetchAdditionalPages_unfold, Htotal.
    destruct fuel as [|fuel]; [lia|].
    rewrite while_loop_S, Hlen.
    change ((Z.of_nat 12 <? 20) && page_within_total (1 + 1) 30) with true. cbv iota.
    change (1 + 1) with 2.
    unfold page_result. rewrite Hremote, Hdata.
    rewrite while_loop_done.
    + unfold js_slice0, js_concat.
      rewrite length_app, Hlen, Hlen2.
      change (Z.to_nat _) with 20%nat.
      rewrite firstn_app, Hlen.
      rewrite firstn_all2 by lia. reflexivity.
    + unfold js_concat. rewrite length_app, Hlen, Hlen2. reflexivity.
  - rewrite length_app, Hlen, length_firstn, Hlen2. reflexivity.
Qed.

Lemma selectedRows_twenty_of_thirty_witness :
  selectedRows 2 sample_remote (sample_state 20) 20
    = Some (Ok (artworks (sample_state 20) ++ firstn 8 (sample_rows 13 12)), [Request 2]) /\
  List.length (artworks (sample_state 20) ++ firstn 8 (sample_rows 13 12)) = 20%nat.
Proof.
  apply (selectedRows_twenty_of_thirty 2 sample_remote (sample_state 20)
           (page_body 20%positive (sample_rows 13 12) 30) 22%positive (sample_rows 13 12)).
  - lia.
  - reflexivity.
  - reflexivity.
  - reflexivity.
  - reflexivity.
  - reflexivity.
  - reflexivity.
Defined.

(** C2, on the code.  With 12 rows loaded from page 1 of a collection of
    30 served 12 per page, asking for 30 (as for 40) requests page 2
    only: page 3 is beyond [totalRecords / 12 = 2.5], so the partial last
    page is never fetched and the call yields 24 rows, not 30. *)
Theorem fetchAdditionalPages_skips_partial_last_page :
  (fetchAdditionalPages 2 sample_remote (sample_state 30) 30 1
     = Some (Ok (sample_rows 1 24), [Request 2]) /\
   Z.of_nat (List.length (sample_rows 1 24))
     <> Z.min 30 (totalRecords (sample_state 30))) /\
  (fetchAdditionalPages 2 sample_remote (sample_state 40) 40 1
     = Some (Ok (sample_rows 1 24), [Request 2]) /\
   Z.of_nat (List.length (sample_rows 1 24))
     <> Z.min 40 (totalRecords (sample_state 40))).
Proof.
  split; (split; [vm_compute; reflexivity|vm_compute; discriminate]).
Qed.

(** C1, on the code.  With the 12 rows of page 1 loaded and a count of
    5, [handleRowSelection] makes no request, but what it merges into the
    selection is the whole loaded page of 12 rows, not its first 5. *)
Theorem handleRowSelection_merges_whole_page :
  exists m : JsMap,
    handleRowSelection 0 sample_remote (sample_state 5)
      = Some (Ok tt, [SetSelectedArtworks m; SetShowFilter false]) /\
    map_values m = sample_rows 1 12 /\
    map_values m <> firstn 5 (sample_rows 1 12).
Proof.
  eexists. split; [vm_compute; reflexivity|]. split; [reflexivity|].
  intros H. apply (f_equal (@List.length JsVal)) in H. vm_compute in H. discriminate.
Qed.

(** ** Page fetches and the shape of the response *)

(** C4, as stated, fails on the code: a body that lacks the [data] array,
    or the pagination total, is not refused.  [fetchArtworksByPage]
    completes normally and hands [undefined] to the state setter. *)
Lemma fetchArtworksByPage_accepts_malformed_body :
  (well_shaped body_without_data = false /\
   fetchArtworksByPage (fun _ => Response (Json body_without_data)) 1
     = Some (Ok tt, [Request 1; SetArtworks VUndefined; SetTotalRecords (VNum 7)])) /\
  (well_shaped body_without_total = false /\
   fetchArtworksByPage (fun _ => Response (Json body_without_total)) 1
     = Some (Ok tt, [Request 1; SetArtworks (VArr 2%positive []); SetTotalRecords VUndefined])).
Proof. repeat split. Qed.

(** [fetchArtworksByPage] on a response that carries JSON. *)
Lemma fetchArtworksByPage_json remote page body :
  remote page = Response (Json body) ->
  fetchArtworksByPage remote page =
  match getProp body "data"%string with
  | Throw e => Some (Throw e, [Request page])
  | Ok d =>
      match getProp body "pagination"%string with
      | Throw e => Some (Throw e, [Request page; SetArtworks d])
      | Ok pagination =>
          match getProp pagination "total"%string with
          | Throw e => Some (Throw e, [Request page; SetArtworks d])
          | Ok total => Some (Ok tt, [Request page; SetArtworks d; SetTotalRecords total])
          end
      end
  end.
Proof.
  intros Hremote. unfold fetchArtworksByPage, await_fetch. rewrite Hremote. simpl.
  destruct (getProp body "data") as [d|e]; simpl; [|reflexivity].
  destruct (getProp body "pagination") as [pagination|e]; simpl; [|reflexivity].
  destruct (getProp pagination "total"); reflexivity.
Qed.

(** A property read fails only with a [TypeError], on [undefined] or
    [null]. *)
Lemma getProp_Throw v k e :
  getProp v k = Throw e -> e = TypeError /\ (v = VUndefined \/ v = VNull).
Proof. destruct v; simpl; intros H; inversion H; auto. Qed.

(** C4, amended.  [fetchArtworksByPage] does not check the shape of the
    body and knows no decode error.  On a JSON body it completes normally
    whenever [body.pagination.total] can be read, and passes [body.data]
    and [body.pagination.total] to the setters as they are; on a
    well-shaped body these are the data array and the numeric total,
    which become the loaded page and the total of the next state.  It
    fails only with a [TypeError], when the body is [null] or
    [body.pagination] is missing or [null]. *)
Theorem fetchArtworksByPage_no_shape_check :
  forall (remote : Remote) (page : Z) (body : JsVal),
    remote page = Response (Json body) ->
    (forall pagination total,
        getProp body "pagination"%string = Ok pagination ->
        getProp pagination "total"%string = Ok total ->
        exists d,
          getProp body "data"%string = Ok d /\
          fetchArtworksByPage remote page
            = Some (Ok tt, [Request page; SetArtworks d; SetTotalRecords total])) /\
    (well_shaped body = true ->
        exists r elems n,
          fetchArtworksByPage remote page
            = Some (Ok tt, [Request page; SetArtworks (VArr r elems); SetTotalRecords (VNum n)]) /\
          forall s,
            apply_effects s [Request page; SetArtworks (VArr r elems); SetTotalRecords (VNum n)]
              = Some (mkState elems (currentPage s) (firstRow s) n
                              (selectedArtworks s) (showFilter s) (rowsToFetch s))) /\
    (forall e tr,
        fetchArtworksByPage remote page = Some (Throw e, tr) ->
        e = TypeError /\
        (body = VUndefined \/ body = VNull \/
         getProp body "pagination"%string = Ok VUndefined \/
         getProp body "pagination"%string = Ok VNull)).
Proof.
  intros remote page body Hremote.
  rewrite (fetchArtworksByPage_json remote page body Hremote).
  split; [|split].
  - intros pagination total Hpag Htotal.
    destruct (getProp body "data") as [d|e] eqn:Hdata.
    + exists d. rewrite Hpag, Htotal. auto.
    + apply getProp_Throw in Hdata as [_ [->| ->]]; discriminate.
  - unfold well_shaped.
    destruct (getProp body "data") as [[| | | | |r elems|]|]; try discriminate.
    destruct (getProp body "pagination") as [pagination|]; try discriminate.
    destruct (getProp pagination "total") as [[| | |n| | |]|]; try discriminate.
    intros _. exists r, elems, n. split; reflexivity.
  - intros e tr.
    destruct (getProp body "data") as [d|e'] eqn:Hdata.
    + destruct (getProp body "pagination") as [pagination|e''] eqn:Hpag.
      * destruct (getProp pagination "total") as [total|e3] eqn:Htotal; [discriminate|].
        intros H; inversion H; subst.
        apply getProp_Throw in Htotal as [-> [->| ->]]; auto.
      * intros H; inversion H; subst.
        apply getProp_Throw in Hpag as [-> [->| ->]]; auto.
    + intros H; inversion H; subst.
      apply getProp_Throw in Hdata as [-> [->| ->]]; auto.
Qed.

Lemma fetchArtworksByPage_no_shape_check_witness :
  sample_remote 1 = Response (Json (page_body 10%positive (sample_rows 1 12) 30)) /\
  exists r elems n,
    fetchArtworksByPage sample_remote 1
      = Some (Ok tt, [Request 1; SetArtworks (VArr r elems); SetTotalRecords (VNum n)]) /\
    forall s,
      apply_effects s [Request 1; SetArtworks (VArr r elems); SetTotalRecords (VNum n)]
        = Some (mkState elems (currentPage s) (firstRow s) n
                        (selectedArtworks s) (showFilter s) (rowsToFetch s)).
Proof.
  assert (Hremote : sample_remote 1
                    = Response (Json (page_body 10%positive (sample_rows 1 12) 30)))
    by reflexivity.
  split; [exact Hremote|].
  apply (fetchArtworksByPage_no_shape_check sample_remote 1 _ Hremote).
  reflexivity.
Defined.

(** The fetch inside the loop of [fetchAdditionalPages] checks as little:
    a page without [data] contributes the element [undefined] and the
    call completes; the later read of [artwork.id] is what throws, in
    [handleRowSelection], before any setter is called. *)
Example fetchAdditionalPages_accepts_malformed_body :
  let remote : Remote := fun _ => Response (Json body_without_data) in
  fetchAdditionalPages 2 remote (sample_state 13) 13 1
    = Some (Ok (sample_rows 1 12 ++ [VUndefined]), [Request 2]) /\
  handleRowSelection 2 remote (sample_state 13)
    = Some (Throw TypeError, [Request 2]).
Proof. split; reflexivity. Qed.

(** ** Page changes *)

(** C7.  [handlePageChange] stores the reported row offset as
    [firstRow], and as [currentPage] the number [floor(first / rows) + 1]:
    the page [n] with [rows * (n - 1) <= first < rows * n]. *)
Theorem handlePageChange_target_page :
  forall (s : State) (event : PageEvent),
    exists s',
      handlePageChange event
        = Some (Ok tt, [SetFirstRow (first event);
                        SetCurrentPage (first event / Z.pos (rows event) + 1)]) /\
      apply_effects s [SetFirstRow (first event);
                       SetCurrentPage (first event / Z.pos (rows event) + 1)] = Some s' /\
      firstRow s' = first event /\
      currentPage s' = first event / Z.pos (rows event) + 1 /\
      Z.pos (rows event) * (currentPage s' - 1) <= first event
        < Z.pos (rows event) * currentPage s'.
Proof.
  intros s [offset size].
  exists (mkState (artworks s) (offset / Z.pos size + 1) offset (totalRecords s)
                  (selectedArtworks s) (showFilter s) (rowsToFetch s)).
  cbn [first rows firstRow currentPage].
  split; [reflexivity|]. split; [reflexivity|].
  split; [reflexivity|]. split; [reflexivity|].
  pose proof (Z.div_mod offset (Z.pos size) ltac:(lia)) as Hdm.
  pose proof (Z.mod_pos_bound offset (Z.pos size) ltac:(lia)) as Hb.
  nia.
Qed.

(** ** The selection map *)

Lemma has_key_app (l1 l2 : list JsVal) (k : JsVal) :
  has_key (l1 ++ l2) k = has_key l1 k || has_key l2 k.
Proof. apply existsb_app. Qed.

Lemma has_key_false (l : list JsVal) (k k' : JsVal) :
  has_key l k = false -> In k' l -> sameValueZero k' k = false.
Proof.
  induction l as [|x l IH]; simpl; [tauto|].
  intros H [<-|Hin]; apply orb_false_iff in H as [Hx Hl]; auto.
Qed.

(** A key that is not in the map goes to the end. *)
Lemma map_set_absent (m : JsMap) (k v : JsVal) :
  has_key (map_keys m) k = false -> map_set m k v = m ++ [(k, v)].
Proof.
  induction m as [|[k' v'] m IH]; simpl; [reflexivity|].
  intros H. apply orb_false_iff in H as [-> Hm].
  rewrite IH by assumption. reflexivity.
Qed.

(** [set] adds at most one key, at the end, and moves none. *)
Lemma map_set_keys (m : JsMap) (k v : JsVal) :
  map_keys (map_set m k v) =
  if has_key (map_keys m) k then map_keys m else map_keys m ++ [k].
Proof.
  induction m as [|[k' v'] m IH]; simpl; [reflexivity|].
  destruct (sameValueZero k' k); simpl; [reflexivity|].
  rewrite IH. destruct (has_key (map_keys m) k); reflexivity.
Qed.

(** [set] leaves every entry where it is; the only thing it may change
    in an entry is the value, and only for the key it was called with. *)
Lemma map_set_nth (m : JsMap) (k v : JsVal) : forall (i : nat) (k0 v0 : JsVal),
  nth_error m i = Some (k0, v0) ->
  exists v', nth_error (map_set m k v) i = Some (k0, v') /\
             (v' = v0 \/ (v' = v /\ sameValueZero k0 k = true)).
Proof.
  induction m as [|[k' v'] m IH]; intros i k0 v0; [destruct i; discriminate|].
  simpl. destruct (sameValueZero k' k) eqn:Hk.
  - destruct i as [|i]; simpl.
    + intros H; inversion H; subst. eauto.
    + intros H. eauto.
  - destruct i as [|i]; simpl.
    + intros H; inversion H; subst. eauto.
    + apply IH.
Qed.

(** Entries with pairwise distinct keys, none of them in the map, are
    appended as they are. *)
Lemma set_all_fresh (entries : list (JsVal * JsVal)) : forall m : JsMap,
  distinct_keys (map_keys entries) = true ->
  (forall k, In k (map_keys entries) -> has_key (map_keys m) k = false) ->
  set_all m entries = m ++ entries.
Proof.
  unfold set_all.
  induction entries as [|[k v] entries IH]; intros m Hdist Hfresh; simpl.
  - symmetry; apply app_nil_r.
  - simpl in Hdist. apply andb_true_iff in Hdist as [Hk Hdist].
    apply negb_true_iff in Hk.
    rewrite map_set_absent by (apply Hfresh; simpl; auto).
    rewrite IH; [rewrite <- app_assoc; reflexivity|assumption|].
    intros k2 Hk2. unfold map_keys. rewrite map_app. rewrite has_key_app.
    apply orb_false_iff. split.
    + apply Hfresh. simpl; auto.
    + simpl. rewrite orb_false_r. rewrite sameValueZero_sym.
      exact (has_key_false _ _ _ Hk Hk2).
Qed.

(** Copying a map, [new Map(m)], yields its entries in the same order. *)
Lemma map_new_copy (m : JsMap) :
  distinct_keys (map_keys m) = true -> map_new m = m.
Proof.
  intros Hdist. unfold map_new. rewrite set_all_fresh; auto.
Qed.

(** [set] keeps the keys of a map distinct. *)
Lemma map_set_distinct (m : JsMap) (k v : JsVal) :
  distinct_keys (map_keys m) = true -> distinct_keys (map_keys (map_set m k v)) = true.
Proof.
  induction m as [|[k' v'] m IH]; simpl; [reflexivity|].
  intros H. apply andb_true_iff in H as [Hk' Hm].
  destruct (sameValueZero k' k) eqn:Hk; simpl.
  - rewrite Hk', Hm. reflexivity.
  - rewrite IH by assumption. rewrite andb_true_r.
    rewrite map_set_keys. destruct (has_key (map_keys m) k); [assumption|].
    rewrite has_key_app. apply negb_true_iff in Hk'. rewrite Hk'. simpl.
    rewrite orb_false_r. rewrite sameValueZero_sym, Hk. reflexivity.
Qed.

(** The keys [forEach_set] uses are the rows' identity keys. *)
Lemma forEach_set_set_all (rows : list JsVal) : forall (m : JsMap) (keys : list JsVal),
  artwork_ids rows = Ok keys ->
  forEach_set m rows = Ok (set_all m (combine keys rows)).
Proof.
  induction rows as [|a rows IH]; intros m keys; simpl.
  - intros H; inversion H; reflexivity.
  - destruct (getProp a "id") as [key|]; [|discriminate].
    destruct (artwork_ids rows) as [keys'|] eqn:Hids; [|discriminate].
    intros H; inversion H; subst. simpl. apply IH. reflexivity.
Qed.

Lemma artwork_ids_combine (rows : list JsVal) : forall keys : list JsVal,
  artwork_ids rows = Ok keys ->
  map_keys (combine keys rows) = keys /\ map_values (combine keys rows) = rows.
Proof.
  induction rows as [|a rows IH]; intros keys; simpl.
  - intros H; inversion H; auto.
  - destruct (getProp a "id") as [key|]; [|discriminate].
    destruct (artwork_ids rows) as [keys'|] eqn:Hids; [|discriminate].
    intros H; inversion H; subst. simpl.
    destruct (IH keys' eq_refl) as [-> ->]. auto.
Qed.

(** [forEach_set] completes exactly when every row has a readable [id]. *)
Lemma forEach_set_Ok (rows : list JsVal) : forall (m m' : JsMap),
  forEach_set m rows = Ok m' -> exists keys, artwork_ids rows = Ok keys.
Proof.
  induction rows as [|a rows IH]; intros m m'; simpl; [eauto|].
  destruct (getProp a "id") as [key|]; [|discriminate].
  intros H. apply IH in H as [keys ->]. eauto.
Qed.

(** ** Replacing the selection *)

(** C8.  When the rows [X] reported by the table have pairwise distinct
    identity keys, [onSelectionChange] makes the selection exactly [X]:
    the next state's selection is keyed by the rows' identities and reads
    back as [X], same rows in the same order, whatever was selected
    before. *)
Theorem onSelectionChange_replaces_selection :
  forall (s : State) (X keys : list JsVal),
    artwork_ids X = Ok keys ->
    distinct_keys keys = true ->
    exists s',
      onSelectionChange X = Some (Ok tt, [SetSelectedArtworks (combine keys X)]) /\
      apply_effects s [SetSelectedArtworks (combine keys X)] = Some s' /\
      selection s' = X /\
      map_keys (selectedArtworks s') = keys.
Proof.
  intros s X keys Hids Hdist.
  destruct (artwork_ids_combine X keys Hids) as [Hkeys Hvalues].
  exists (mkState (artworks s) (currentPage s) (firstRow s) (totalRecords s)
                  (combine keys X) (showFilter s) (rowsToFetch s)).
  split; [|split; [reflexivity|split; assumption]].
  unfold onSelectionChange.
  change (map_new []) with (@nil (JsVal * JsVal)).
  rewrite (forEach_set_set_all X [] keys Hids).
  rewrite set_all_fresh; [reflexivity|rewrite Hkeys; assumption|reflexivity].
Qed.

Lemma onSelectionChange_replaces_selection_witness :
  (artwork_ids (sample_rows 20 3) = Ok [VNum 20; VNum 21; VNum 22] /\
   distinct_keys [VNum 20; VNum 21; VNum 22] = true) /\
  exists s',
    onSelectionChange (sample_rows 20 3)
      = Some (Ok tt, [SetSelectedArtworks
                        (combine [VNum 20; VNum 21; VNum 22] (sample_rows 20 3))]) /\
    apply_effects (sample_state 5)
      [SetSelectedArtworks (combine [VNum 20; VNum 21; VNum 22] (sample_rows 20 3))]
      = Some s' /\
    selection s' = sample_rows 20 3 /\
    map_keys (selectedArtworks s') = [VNum 20; VNum 21; VNum 22].
Proof.
  assert (Hids : artwork_ids (sample_rows 20 3) = Ok [VNum 20; VNum 21; VNum 22])
    by reflexivity.
  assert (Hdist : distinct_keys [VNum 20; VNum 21; VNum 22] = true) by reflexivity.
  split; [split; assumption|].
  exact (onSelectionChange_replaces_selection (sample_state 5) (sample_rows 20 3)
           [VNum 20; VNum 21; VNum 22] Hids Hdist).
Defined.

(** ** Merging into the selection *)

(** The merge of [handleRowSelection], [forEach_set], seen from the map
    it starts with: the old entries stay where they are and keep their
    keys, a value changes only into a merged row with the same identity,
    and the keys that come after the old ones were not in the map. *)
Lemma forEach_set_extends (rows : list JsVal) : forall (m m' : JsMap),
  forEach_set m rows = Ok m' ->
  exists fresh : list JsVal,
    map_keys m' = map_keys m ++ fresh /\
    (forall k, In k fresh -> has_key (map_keys m) k = false) /\
    (forall i k v, nth_error m i = Some (k, v) ->
       exists v', nth_error m' i = Some (k, v') /\
         (v' = v \/
          (In v' rows /\
           exists key, getProp v' "id"%string = Ok key /\ sameValueZero k key = true))).
Proof.
  induction rows as [|a rows IH]; intros m m'; simpl.
  - intros H; inversion H; subst. exists []. rewrite app_nil_r.
    split; [reflexivity|]. split; [intros k []|]. eauto.
  - destruct (getProp a "id") as [key|] eqn:Hid; [|discriminate].
    intros H. apply IH in H as (fresh1 & Hkeys & Hfresh & Hnth).
    rewrite map_set_keys in Hkeys, Hfresh.
    assert (Hold : forall i k v, nth_error m i = Some (k, v) ->
              exists v', nth_error m' i = Some (k, v') /\
                (v' = v \/
                 ((a = v' \/ In v' rows) /\
                  exists key0, getProp v' "id"%string = Ok key0 /\
                               sameValueZero k key0 = true))).
    { intros i k v Hi.
      destruct (map_set_nth m key a i k v Hi) as (v1 & Hi1 & Hv1).
      destruct (Hnth i k v1 Hi1) as (v' & Hi' & Hv').
      exists v'. split; [assumption|].
      destruct Hv' as [->|[Hin Hkey]].
      - destruct Hv1 as [->|[-> Hk]]; [auto|].
        right. split; [auto|]. eauto.
      - right. split; auto. }
    destruct (has_key (map_keys m) key) eqn:Hpresent.
    + exists fresh1. auto.
    + exists (key :: fresh1). split; [|split; [|assumption]].
      * rewrite Hkeys, <- app_assoc. reflexivity.
      * intros k [<-|Hk]; [assumption|].
        apply Hfresh in Hk. rewrite has_key_app in Hk.
        apply orb_false_iff in Hk as [Hk _]. assumption.
Qed.

(** Merging rows whose identities are all in the map adds no key. *)
Lemma forEach_set_same_keys (rows : list JsVal) : forall (m m' : JsMap) (ids : list JsVal),
  artwork_ids rows = Ok ids ->
  (forall k, In k ids -> has_key (map_keys m) k = true) ->
  forEach_set m rows = Ok m' ->
  map_keys m' = map_keys m.
Proof.
  induction rows as [|a rows IH]; intros m m' ids; simpl.
  - intros _ _ H; inversion H; reflexivity.
  - destruct (getProp a "id") as [key|]; [|discriminate].
    destruct (artwork_ids rows) as [ids'|] eqn:Hids; [|discriminate].
    intros H Hall Hrun; inversion H; subst.
    assert (Hkeys : map_keys (map_set m key a) = map_keys m)
      by (rewrite map_set_keys, (Hall key) by (simpl; auto); reflexivity).
    rewrite <- Hkeys. apply (IH _ _ ids'); auto.
    intros k Hk. rewrite Hkeys. apply Hall. simpl; auto.
Qed.

(** ** Failure of the bulk selection *)

(** [handleRowSelection] for a count that is neither [null] nor 0: the
    rows are obtained, merged, and only then are the setters called. *)
Lemma handleRowSelection_run fuel remote s rowsNeeded :
  rowsToFetch s = Some rowsNeeded ->
  rowsNeeded <> 0 ->
  handleRowSelection fuel remote s =
  match selectedRows fuel remote s rowsNeeded with
  | None => None
  | Some (Throw e, tr) => Some (Throw e, tr)
  | Some (Ok rows, tr) =>
      match forEach_set (map_new (selectedArtworks s)) rows with
      | Throw e => Some (Throw e, tr)
      | Ok updatedSelection =>
          Some (Ok tt, tr ++ [SetSelectedArtworks updatedSelection; SetShowFilter false])
      end
  end.
Proof.
  intros Hrows Hnz. unfold handleRowSelection. rewrite Hrows.
  destruct (Z.eqb_spec rowsNeeded 0); [contradiction|].
  unfold bind, lift, emit.
  destruct (selectedRows fuel remote s rowsNeeded) as [[[rows|e] tr]|]; try reflexivity.
  destruct (forEach_set (map_new (selectedArtworks s)) rows); simpl;
    rewrite ?app_nil_r; reflexivity.
Qed.



(** The failed fetch of page 2 while 20 rows are asked for: the handler
    ends in the rejection of [fetch] and the state stays as it was. *)
Example handleRowSelection_page2_fails :
  fetch_fails (failing_remote 2) = true /\
  handleRowSelection 2 failing_remote (sample_state 20)
    = Some (Throw FetchRejected, [Request 2]) /\
  apply_effects (sample_state 20) [Request 2] = Some (sample_state 20).
Proof. repeat split. Qed.

(** * Further properties of the component *)

(** ** Loading a page *)

(** [fetchArtworksByPage] by the outcome of the request. *)
Lemma fetchArtworksByPage_cases remote page :
  fetchArtworksByPage remote page =
  match remote page with
  | NetworkFailure => Some (Throw FetchRejected, [Request page])
  | Response InvalidJson => Some (Throw JsonRejected, [Request page])
  | Response (Json body) =>
      match getProp body "data"%string with
      | Throw e => Some (Throw e, [Request page])
      | Ok d =>
          match getProp body "pagination"%string with
          | Throw e => Some (Throw e, [Request page; SetArtworks d])
          | Ok pagination =>
              match getProp pagination "total"%string with
              | Throw e => Some (Throw e, [Request page; SetArtworks d])
              | Ok total => Some (Ok tt, [Request page; SetArtworks d; SetTotalRecords total])
              end
          end
      end
  end.
Proof.
  destruct (remote page) as [|[|body]] eqn:Hremote.
  - unfold fetchArtworksByPage, await_fetch. rewrite Hremote. reflexivity.
  - unfold fetchArtworksByPage, await_fetch. rewrite Hremote. reflexivity.
  - apply fetchArtworksByPage_json. assumption.
Qed.

(** When the request of a page fails (the transport fails, the body is
    not JSON, or the body is [null]), [fetchArtworksByPage] rejects with
    that error after its single request and before any setter: the state
    of the next render is the state before. *)
Theorem fetchArtworksByPage_failure_keeps_state :
  forall (remote : Remote) (page : Z) (s : State),
    fetch_fails (remote page) = true ->
    exists e,
      page_result (remote page) = Throw e /\
      fetchArtworksByPage remote page = Some (Throw e, [Request page]) /\
      next_state s (fetchArtworksByPage remote page) = Some s.
Proof.
  intros remote page s Hfail. unfold next_state.
  rewrite fetchArtworksByPage_cases.
  unfold fetch_fails, page_result in *.
  destruct (remote page) as [|[|body]]; eauto.
  destruct (getProp body "data") as [d|e]; [discriminate|eauto].
Qed.

Lemma fetchArtworksByPage_failure_keeps_state_witness :
  fetch_fails (failing_remote 2) = true /\
  exists e,
    page_result (failing_remote 2) = Throw e /\
    fetchArtworksByPage failing_remote 2 = Some (Throw e, [Request 2]) /\
    next_state (sample_state 5) (fetchArtworksByPage failing_remote 2)
      = Some (sample_state 5).
Proof.
  assert (Hfail : fetch_fails (failing_remote 2) = true) by reflexivity.
  split; [exact Hfail|].
  exact (fetchArtworksByPage_failure_keeps_state failing_remote 2 (sample_state 5) Hfail).
Defined.

(** A body with a [data] array whose [pagination] is missing or [null]
    leaves the state half updated: [setArtworks] has already been called
    when the read of [pagination.total] throws, so the next render shows
    the new rows with the old total. *)
Theorem fetchArtworksByPage_partial_update :
  forall (remote : Remote) (page : Z) (s : State) (body : JsVal) (r : ref)
         (elems : list JsVal),
    remote page = Response (Json body) ->
    getProp body "data"%string = Ok (VArr r elems) ->
    (getProp body "pagination"%string = Ok VUndefined \/
     getProp body "pagination"%string = Ok VNull) ->
    fetchArtworksByPage remote page
      = Some (Throw TypeError, [Request page; SetArtworks (VArr r elems)]) /\
    next_state s (fetchArtworksByPage remote page)
      = Some (mkState elems (currentPage s) (firstRow s) (totalRecords s)
                      (selectedArtworks s) (showFilter s) (rowsToFetch s)).
Proof.
  intros remote page s body r elems Hremote Hdata Hpag. unfold next_state.
  rewrite fetchArtworksByPage_cases, Hremote, Hdata.
  destruct Hpag as [-> | ->]; split; reflexivity.
Qed.

Lemma fetchArtworksByPage_partial_update_witness :
  ((fun _ : Z => Response (Json body_without_pagination)) 2
     = Response (Json body_without_pagination) /\
   getProp body_without_pagination "data"%string = Ok (VArr 2%positive (sample_rows 13 12)) /\
   getProp body_without_pagination "pagination"%string = Ok VUndefined) /\
  fetchArtworksByPage (fun _ => Response (Json body_without_pagination)) 2
    = Some (Throw TypeError, [Request 2; SetArtworks (VArr 2%positive (sample_rows 13 12))]) /\
  next_state (sample_state 5)
             (fetchArtworksByPage (fun _ => Response (Json body_without_pagination)) 2)
    = Some (mkState (sample_rows 13 12) 1 0 30 [] true (Some 5)).
Proof.
  split; [repeat split|].
  exact (fetchArtworksByPage_partial_update
           (fun _ => Response (Json body_without_pagination)) 2 (sample_state 5)
           body_without_pagination 2%positive (sample_rows 13 12)
           eq_refl eq_refl (or_introl eq_refl)).
Defined.

(** [fetchArtworksByPage] always returns, makes exactly one request, for
    the page it was given, and writes nothing but the loaded page and the
    total: page number, row offset, selection, filter flag and typed-in
    count of the next render are those of the current one. *)
Theorem fetchArtworksByPage_frame :
  forall (remote : Remote) (page : Z),
    exists r tr,
      fetchArtworksByPage remote page = Some (r, tr) /\
      requests tr = [page] /\
      forall s s',
        apply_effects s tr = Some s' ->
        currentPage s' = currentPage s /\
        firstRow s' = firstRow s /\
        selectedArtworks s' = selectedArtworks s /\
        showFilter s' = showFilter s /\
        rowsToFetch s' = rowsToFetch s.
Proof.
  intros remote page. rewrite fetchArtworksByPage_cases.
  assert (Hset : forall d s s', apply_effects s [Request page; SetArtworks d] = Some s' ->
            currentPage s' = currentPage s /\ firstRow s' = firstRow s /\
            selectedArtworks s' = selectedArtworks s /\ showFilter s' = showFilter s /\
            rowsToFetch s' = rowsToFetch s).
  { intros d s s'. simpl. destruct d; try discriminate.
    intros H; inversion H; subst; simpl; auto. }
  destruct (remote page) as [|[|body]].
  - eexists _, _. split; [reflexivity|]. split; [reflexivity|].
    simpl. intros s s' H; inversion H; subst; auto.
  - eexists _, _. split; [reflexivity|]. split; [reflexivity|].
    simpl. intros s s' H; inversion H; subst; auto.
  - destruct (getProp body "data") as [d|e].
    + destruct (getProp body "pagination") as [pagination|e].
      * destruct (getProp pagination "total") as [total|e].
        { eexists _, _. split; [reflexivity|]. split; [reflexivity|].
          simpl. intros s s'. destruct d; try discriminate.
          destruct total; try discriminate.
          intros H; inversion H; subst; simpl; auto. }
        { eexists _, _. split; [reflexivity|]. split; [reflexivity|]. apply Hset. }
      * eexists _, _. split; [reflexivity|]. split; [reflexivity|]. apply Hset.
    + eexists _, _. split; [reflexivity|]. split; [reflexivity|].
      simpl. intros s s' H; inversion H; subst; auto.
Qed.

(** ** Page navigation *)

(** The state after [handlePageChange]: only the row offset and the page
    number change. *)
Lemma handlePageChange_next_state (s : State) (event : PageEvent) :
  handlePageChange event
    = Some (Ok tt, [SetFirstRow (first event);
                    SetCurrentPage (first event / Z.pos (rows event) + 1)]) /\
  apply_effects s [SetFirstRow (first event);
                   SetCurrentPage (first event / Z.pos (rows event) + 1)]
    = Some (mkState (artworks s) (first event / Z.pos (rows event) + 1) (first event)
                    (totalRecords s) (selectedArtworks s) (showFilter s) (rowsToFetch s)).
Proof. destruct event; split; reflexivity. Qed.

(** A page event for another page whose response is well shaped: the
    page is requested once, its rows replace the loaded page wholesale,
    the reported total replaces the total, page number and row offset are
    those of the event, and the selection made on earlier pages is kept
    as it is. *)
Theorem navigate_loads_page :
  forall (remote : Remote) (s : State) (event : PageEvent) (body pagination : JsVal)
         (r : ref) (elems : list JsVal) (total : Z),
    first event / Z.pos (rows event) + 1 <> currentPage s ->
    remote (first event / Z.pos (rows event) + 1) = Response (Json body) ->
    getProp body "data"%string = Ok (VArr r elems) ->
    getProp body "pagination"%string = Ok pagination ->
    getProp pagination "total"%string = Ok (VNum total) ->
    exists tr,
      navigate remote s event
        = Some ((Ok tt, tr),
                mkState elems (first event / Z.pos (rows event) + 1) (first event) total
                        (selectedArtworks s) (showFilter s) (rowsToFetch s)) /\
      requests tr = [first event / Z.pos (rows event) + 1].
Proof.
  intros remote s event body pagination r elems total Hother Hremote Hdata Hpag Htotal.
  destruct (handlePageChange_next_state s event) as [Hrun Hnext].
  unfold navigate. rewrite Hrun, Hnext.
  unfold useEffect_currentPage. cbn [currentPage].
  destruct (Z.eqb_spec (first event / Z.pos (rows event) + 1) (currentPage s)) as [|_];
    [contradiction|].
  rewrite fetchArtworksByPage_cases, Hremote, Hdata, Hpag, Htotal.
  eexists. split; reflexivity.
Qed.

Lemma navigate_loads_page_witness :
  (24 / Z.pos 12 + 1 <> currentPage (sample_state 5) /\
   sample_remote (24 / Z.pos 12 + 1)
     = Response (Json (page_body 30%positive (sample_rows 25 6) 30)) /\
   getProp (page_body 30%positive (sample_rows 25 6) 30) "data"%string
     = Ok (VArr 32%positive (sample_rows 25 6)) /\
   getProp (page_body 30%positive (sample_rows 25 6) 30) "pagination"%string
     = Ok (VObj 31%positive [("total"%string, VNum 30)]) /\
   getProp (VObj 31%positive [("total"%string, VNum 30)]) "total"%string = Ok (VNum 30)) /\
  exists tr,
    navigate sample_remote (sample_state 5) (mkPageEvent 24 12)
      = Some ((Ok tt, tr), mkState (sample_rows 25 6) (24 / Z.pos 12 + 1) 24 30 [] true (Some 5)) /\
    requests tr = [24 / Z.pos 12 + 1].
Proof.
  assert (Hother : 24 / Z.pos 12 + 1 <> currentPage (sample_state 5))
    by (vm_compute; discriminate).
  split; [repeat split; exact Hother|].
  exact (navigate_loads_page sample_remote (sample_state 5) (mkPageEvent 24 12)
           (page_body 30%positive (sample_rows 25 6) 30)
           (VObj 31%positive [("total"%string, VNum 30)])
           32%positive (sample_rows 25 6) 30 Hother eq_refl eq_refl eq_refl eq_refl).
Defined.

(** A page event for another page whose request fails: the handler has
    already stored the new row offset and page number when the effect
    fetches, so the next render shows the new page number over the rows
    and total of the page that was loaded before. *)
Theorem navigate_failure_moves_page_number :
  forall (remote : Remote) (s : State) (event : PageEvent),
    first event / Z.pos (rows event) + 1 <> currentPage s ->
    fetch_fails (remote (first event / Z.pos (rows event) + 1)) = true ->
    exists e,
      navigate remote s event
        = Some ((Throw e, [SetFirstRow (first event);
                           SetCurrentPage (first event / Z.pos (rows event) + 1);
                           Request (first event / Z.pos (rows event) + 1)]),
                mkState (artworks s) (first event / Z.pos (rows event) + 1) (first event)
                        (totalRecords s) (selectedArtworks s) (showFilter s)
                        (rowsToFetch s)).
Proof.
  intros remote s event Hother Hfail.
  destruct (handlePageChange_next_state s event) as [Hrun Hnext].
  unfold navigate. rewrite Hrun, Hnext.
  unfold useEffect_currentPage. cbn [currentPage].
  destruct (Z.eqb_spec (first event / Z.pos (rows event) + 1) (currentPage s)) as [|_];
    [contradiction|].
  rewrite fetchArtworksByPage_cases.
  unfold fetch_fails, page_result in Hfail.
  destruct (remote (first event / Z.pos (rows event) + 1)) as [|[|body]].
  - eexists. reflexivity.
  - eexists. reflexivity.
  - destruct (getProp body "data") as [d|e]; [discriminate|].
    exists e. reflexivity.
Qed.

Lemma navigate_failure_moves_page_number_witness :
  (12 / Z.pos 12 + 1 <> currentPage (sample_state 5) /\
   fetch_fails (failing_remote (12 / Z.pos 12 + 1)) = true) /\
  exists e,
    navigate failing_remote (sample_state 5) (mkPageEvent 12 12)
      = Some ((Throw e, [SetFirstRow 12; SetCurrentPage (12 / Z.pos 12 + 1);
                         Request (12 / Z.pos 12 + 1)]),
              mkState (sample_rows 1 12) (12 / Z.pos 12 + 1) 12 30 [] true (Some 5)).
Proof.
  assert (Hother : 12 / Z.pos 12 + 1 <> currentPage (sample_state 5))
    by (vm_compute; discriminate).
  assert (Hfail : fetch_fails (failing_remote (12 / Z.pos 12 + 1)) = true) by reflexivity.
  split; [split; assumption|].
  exact (navigate_failure_moves_page_number failing_remote (sample_state 5)
           (mkPageEvent 12 12) Hother Hfail).
Defined.

(** A page event that stays on the current page makes no request: the
    effect depends on [currentPage] only, so the rows on screen are not
    fetched again and only the row offset is updated. *)
Theorem navigate_same_page_no_request :
  forall (remote : Remote) (s : State) (event : PageEvent),
    first event / Z.pos (rows event) + 1 = currentPage s ->
    exists tr,
      navigate remote s event
        = Some ((Ok tt, tr),
                mkState (artworks s) (currentPage s) (first event) (totalRecords s)
                        (selectedArtworks s) (showFilter s) (rowsToFetch s)) /\
      requests tr = [].
Proof.
  intros remote s event Hsame.
  destruct (handlePageChange_next_state s event) as [Hrun Hnext].
  unfold navigate. rewrite Hrun, Hnext.
  unfold useEffect_currentPage. cbn [currentPage].
  rewrite Hsame, Z.eqb_refl.
  eexists. split; reflexivity.
Qed.

Lemma navigate_same_page_no_request_witness :
  5 / Z.pos 12 + 1 = currentPage (sample_state 5) /\
  exists tr,
    navigate sample_remote (sample_state 5) (mkPageEvent 5 12)
      = Some ((Ok tt, tr), mkState (sample_rows 1 12) 1 5 30 [] true (Some 5)) /\
    requests tr = [].
Proof.
  assert (Hsame : 5 / Z.pos 12 + 1 = currentPage (sample_state 5)) by reflexivity.
  split; [exact Hsame|].
  exact (navigate_same_page_no_request sample_remote (sample_state 5) (mkPageEvent 5 12) Hsame).
Defined.

(** ** Bulk selection within the loaded page *)

Lemma apply_effects_app (s : State) (tr1 tr2 : list Effect) :
  apply_effects s (tr1 ++ tr2) =
  match apply_effects s tr1 with
  | Some s1 => apply_effects s1 tr2
  | None => None
  end.
Proof.
  revert s. induction tr1 as [|e tr1 IH]; intros s; simpl; [reflexivity|].
  destruct (apply_effect s e); auto.
Qed.

(** No count ([null]), a count of 0, and any count the loaded page covers
    make no request at all, whatever the fuel and the remote source. *)
Theorem handleRowSelection_no_request_within_page :
  forall (fuel : nat) (remote : Remote) (s : State),
    (rowsToFetch s = None \/
     exists n, rowsToFetch s = Some n /\ n <= Z.of_nat (List.length (artworks s))) ->
    exists r tr,
      handleRowSelection fuel remote s = Some (r, tr) /\ requests tr = [].
Proof.
  intros fuel remote s [Hnone|(n & Hsome & Hle)].
  - exists (Ok tt), []. unfold handleRowSelection. rewrite Hnone. auto.
  - destruct (Z.eq_dec n 0) as [->|Hnz].
    + exists (Ok tt), []. unfold handleRowSelection. rewrite Hsome. auto.
    + rewrite (handleRowSelection_run fuel remote s n Hsome Hnz).
      rewrite (selectedRows_fast_path fuel remote s n Hle).
      destruct (forEach_set _ _); eexists _, _; split; reflexivity.
Qed.

Lemma handleRowSelection_no_request_within_page_witness :
  (rowsToFetch (sample_state 12) = None \/
   exists n, rowsToFetch (sample_state 12) = Some n /\
             n <= Z.of_nat (List.length (artworks (sample_state 12)))) /\
  exists r tr,
    handleRowSelection 0 failing_remote (sample_state 12) = Some (r, tr) /\ requests tr = [].
Proof.
  assert (H : rowsToFetch (sample_state 12) = None \/
              exists n, rowsToFetch (sample_state 12) = Some n /\
                        n <= Z.of_nat (List.length (artworks (sample_state 12)))).
  { right. exists 12. split; [reflexivity|]. vm_compute. discriminate. }
  split; [exact H|].
  exact (handleRowSelection_no_request_within_page 0 failing_remote (sample_state 12) H).
Defined.

(** On the fast path the count only decides whether anything happens:
    for every non-zero count up to the number of loaded rows, all loaded
    rows are merged.  When their identities are pairwise distinct and none
    is selected yet, the selection of the next render is the old
    selection followed by the whole loaded page, in page order, and the
    filter is closed. *)
Theorem handleRowSelection_fast_path_selects_page :
  forall (fuel : nat) (remote : Remote) (s : State) (n : Z) (ids : list JsVal),
    rowsToFetch s = Some n ->
    n <> 0 ->
    n <= Z.of_nat (List.length (artworks s)) ->
    artwork_ids (artworks s) = Ok ids ->
    distinct_keys (map_keys (selectedArtworks s)) = true ->
    distinct_keys ids = true ->
    (forall k, In k ids -> has_key (map_keys (selectedArtworks s)) k = false) ->
    exists s',
      handleRowSelection fuel remote s
        = Some (Ok tt, [SetSelectedArtworks (selectedArtworks s ++ combine ids (artworks s));
                        SetShowFilter false]) /\
      next_state s (handleRowSelection fuel remote s) = Some s' /\
      selection s' = selection s ++ artworks s /\
      showFilter s' = false.
Proof.
  intros fuel remote s n ids Hsome Hnz Hle Hids Hsel Hdist Hfresh.
  destruct (artwork_ids_combine (artworks s) ids Hids) as [Hkeys Hvalues].
  assert (Hrun : handleRowSelection fuel remote s
                 = Some (Ok tt, [SetSelectedArtworks
                                   (selectedArtworks s ++ combine ids (artworks s));
                                 SetShowFilter false])).
  { rewrite (handleRowSelection_run fuel remote s n Hsome Hnz).
    rewrite (selectedRows_fast_path fuel remote s n Hle).
    rewrite (map_new_copy _ Hsel).
    rewrite (forEach_set_set_all (artworks s) (selectedArtworks s) ids Hids).
    rewrite set_all_fresh; [reflexivity|rewrite Hkeys; assumption|].
    rewrite Hkeys. assumption. }
  exists (mkState (artworks s) (currentPage s) (firstRow s) (totalRecords s)
                  (selectedArtworks s ++ combine ids (artworks s)) false (rowsToFetch s)).
  split; [exact Hrun|]. rewrite Hrun.
  split; [reflexivity|]. split; [|reflexivity].
  unfold selection, map_values; cbn [selectedArtworks].
  rewrite map_app. fold (map_values (combine ids (artworks s))).
  rewrite Hvalues. reflexivity.
Qed.

Lemma handleRowSelection_fast_path_selects_page_witness :
  (rowsToFetch (sample_state 5) = Some 5 /\
   5 <> 0 /\
   5 <= Z.of_nat (List.length (artworks (sample_state 5))) /\
   artwork_ids (artworks (sample_state 5)) = Ok (List.map VNum (List.map Z.of_nat (seq 1 12))) /\
   distinct_keys (map_keys (selectedArtworks (sample_state 5))) = true /\
   distinct_keys (List.map VNum (List.map Z.of_nat (seq 1 12))) = true) /\
  exists s',
    handleRowSelection 0 sample_remote (sample_state 5)
      = Some (Ok tt, [SetSelectedArtworks
                        (selectedArtworks (sample_state 5)
                         ++ combine (List.map VNum (List.map Z.of_nat (seq 1 12)))
                                    (artworks (sample_state 5)));
                      SetShowFilter false]) /\
    next_state (sample_state 5) (handleRowSelection 0 sample_remote (sample_state 5))
      = Some s' /\
    selection s' = selection (sample_state 5) ++ artworks (sample_state 5) /\
    showFilter s' = false.
Proof.
  assert (Hnz : 5 <> 0) by discriminate.
  assert (Hle : 5 <= Z.of_nat (List.length (artworks (sample_state 5))))
    by (vm_compute; discriminate).
  assert (Hids : artwork_ids (artworks (sample_state 5))
                 = Ok (List.map VNum (List.map Z.of_nat (seq 1 12)))) by reflexivity.
  assert (Hdist : distinct_keys (List.map VNum (List.map Z.of_nat (seq 1 12))) = true)
    by reflexivity.
  split; [repeat split; assumption|].
  apply (handleRowSelection_fast_path_selects_page 0 sample_remote (sample_state 5) 5
           (List.map VNum (List.map Z.of_nat (seq 1 12))) eq_refl Hnz Hle Hids eq_refl Hdist).
  intros k _. reflexivity.
Defined.

(** ** What the bulk selection leaves alone *)

(** The runs of [handleRowSelection]: requests for consecutive pages,
    followed, when the handler completes with a count, by the two setter
    calls. *)
Lemma handleRowSelection_trace fuel remote s r tr :
  handleRowSelection fuel remote s = Some (r, tr) ->
  exists (k : nat),
    tr = List.map Request (pages_from (currentPage s + 1) k) \/
    exists rows m,
      r = Ok tt /\
      forEach_set (map_new (selectedArtworks s)) rows = Ok m /\
      tr = List.map Request (pages_from (currentPage s + 1) k)
           ++ [SetSelectedArtworks m; SetShowFilter false].
Proof.
  intros Hrun.
  destruct (rowsToFetch s) as [n|] eqn:Hsome.
  2:{ unfold handleRowSelection in Hrun. rewrite Hsome in Hrun.
      inversion Hrun. exists O. auto. }
  destruct (Z.eq_dec n 0) as [->|Hnz].
  { unfold handleRowSelection in Hrun. rewrite Hsome in Hrun.
    inversion Hrun. exists O. auto. }
  rewrite (handleRowSelection_run fuel remote s n Hsome Hnz) in Hrun.
  unfold selectedRows in Hrun.
  destruct (n >? Z.of_nat (List.length (artworks s))).
  - rewrite fetchAdditionalPages_unfold in Hrun.
    destruct (while_loop fuel remote n (totalRecords s) (artworks s) (currentPage s + 1))
      as [[r0 tr0]|] eqn:Hloop; [|discriminate].
    destruct (while_loop_run _ _ _ _ _ _ _ _ Hloop) as (k & -> & _).
    exists k. destruct r0 as [rows|e].
    + destruct (forEach_set _ _) as [m|e] eqn:Hmerge; inversion Hrun; subst; eauto 10.
    + inversion Hrun; subst; auto.
  - unfold ret in Hrun. exists O.
    destruct (forEach_set _ _) as [m|e] eqn:Hmerge; inversion Hrun; subst; eauto 10.
Qed.

(** [handleRowSelection] never touches the pagination: whatever it
    fetched and however it ended, the loaded page, page number, row
    offset, total and typed-in count of the next render are those of the
    current one.  The accumulated pages live in the local buffer only. *)
Theorem handleRowSelection_keeps_pagination :
  forall (fuel : nat) (remote : Remote) (s : State) (r : Result unit) (tr : list Effect),
    handleRowSelection fuel remote s = Some (r, tr) ->
    exists s',
      apply_effects s tr = Some s' /\
      artworks s' = artworks s /\
      currentPage s' = currentPage s /\
      firstRow s' = firstRow s /\
      totalRecords s' = totalRecords s /\
      rowsToFetch s' = rowsToFetch s.
Proof.
  intros fuel remote s r tr Hrun.
  destruct (handleRowSelection_trace fuel remote s r tr Hrun)
    as (k & [-> | (rows & m & _ & _ & ->)]).
  - exists s. rewrite apply_effects_map_Request. auto 6.
  - rewrite apply_effects_app, apply_effects_map_Request. simpl.
    eexists. split; [reflexivity|]. simpl. auto 6.
Qed.

Lemma handleRowSelection_keeps_pagination_witness :
  handleRowSelection 2 sample_remote (sample_state 20)
    = Some (Ok tt, [Request 2;
                    SetSelectedArtworks
                      (combine (List.map VNum (List.map Z.of_nat (seq 1 20))) (sample_rows 1 20));
                    SetShowFilter false]) /\
  exists s',
    apply_effects (sample_state 20)
      [Request 2;
       SetSelectedArtworks
         (combine (List.map VNum (List.map Z.of_nat (seq 1 20))) (sample_rows 1 20));
       SetShowFilter false] = Some s' /\
    artworks s' = artworks (sample_state 20) /\
    currentPage s' = currentPage (sample_state 20) /\
    firstRow s' = firstRow (sample_state 20) /\
    totalRecords s' = totalRecords (sample_state 20) /\
    rowsToFetch s' = rowsToFetch (sample_state 20).
Proof.
  assert (Hrun : handleRowSelection 2 sample_remote (sample_state 20)
                 = Some (Ok tt, [Request 2;
                                 SetSelectedArtworks
                                   (combine (List.map VNum (List.map Z.of_nat (seq 1 20)))
                                            (sample_rows 1 20));
                                 SetShowFilter false])) by reflexivity.
  split; [exact Hrun|].
  exact (handleRowSelection_keeps_pagination 2 sample_remote (sample_state 20) _ _ Hrun).
Defined.

(** ** The selection map as a Map *)

(** Comparing against two equal keys gives the same answer. *)
Lemma sameValueZero_compat (a b c : JsVal) :
  sameValueZero a b = true -> sameValueZero a c = sameValueZero b c.
Proof.
  intros Hab.
  destruct (sameValueZero b c) eqn:Hbc.
  - eauto using sameValueZero_trans.
  - destruct (sameValueZero a c) eqn:Hac; [|reflexivity].
    rewrite sameValueZero_sym in Hab.
    rewrite <- Hbc. symmetry. eauto using sameValueZero_trans.
Qed.

(** Lookup after [set]: the key written reads back the new value, every
    other key reads as before. *)
Lemma map_get_set (m : JsMap) (k v k' : JsVal) :
  map_get (map_set m k v) k' =
  if sameValueZero k k' then Some v else map_get m k'.
Proof.
  induction m as [|[k0 v0] m IH]; simpl; [reflexivity|].
  destruct (sameValueZero k0 k) eqn:Hk0; simpl.
  - rewrite (sameValueZero_compat k0 k k' Hk0).
    destruct (sameValueZero k k'); reflexivity.
  - rewrite IH.
    destruct (sameValueZero k0 k') eqn:Hk0', (sameValueZero k k') eqn:Hkk'; try reflexivity.
    rewrite sameValueZero_sym in Hkk'.
    rewrite (sameValueZero_trans k0 k' k Hk0' Hkk') in Hk0. discriminate.
Qed.

Lemma has_key_compat (l : list JsVal) (k k' : JsVal) :
  sameValueZero k k' = true -> has_key l k = has_key l k'.
Proof.
  intros Hk. induction l as [|x l IH]; simpl; [reflexivity|].
  rewrite IH. f_equal.
  rewrite (sameValueZero_sym x k), (sameValueZero_sym x k').
  apply sameValueZero_compat. assumption.
Qed.

Lemma map_get_absent (m : JsMap) (k : JsVal) :
  has_key (map_keys m) k = false -> map_get m k = None.
Proof.
  induction m as [|[k0 v0] m IH]; simpl; [reflexivity|].
  intros H. apply orb_false_iff in H as [-> Hm]. auto.
Qed.

(** Two maps with the same keys in the same order, pairwise distinct,
    and the same lookups are the same map. *)
Lemma map_ext (m1 : JsMap) : forall m2 : JsMap,
  map_keys m1 = map_keys m2 ->
  distinct_keys (map_keys m1) = true ->
  (forall k, map_get m1 k = map_get m2 k) ->
  m1 = m2.
Proof.
  induction m1 as [|[k v1] m1 IH]; intros [|[k2 v2] m2]; simpl; try discriminate; [reflexivity|].
  intros Hkeys Hdist Hget. inversion Hkeys; subst k2.
  apply andb_true_iff in Hdist as [Hk Hdist]. apply negb_true_iff in Hk.
  pose proof (Hget k) as Hhead. rewrite sameValueZero_refl in Hhead.
  inversion Hhead; subst v2. f_equal.
  apply IH; [assumption|assumption|].
  intros k'. destruct (sameValueZero k k') eqn:Hkk'.
  - rewrite !map_get_absent; [reflexivity| |].
    + rewrite <- H1, <- (has_key_compat _ k k' Hkk'). assumption.
    + rewrite <- (has_key_compat _ k k' Hkk'). assumption.
  - specialize (Hget k'). rewrite Hkk' in Hget. assumption.
Qed.

Lemma set_all_distinct (entries : list (JsVal * JsVal)) : forall m : JsMap,
  distinct_keys (map_keys m) = true ->
  distinct_keys (map_keys (set_all m entries)) = true.
Proof.
  unfold set_all. induction entries as [|[k v] entries IH]; intros m Hm; simpl; [assumption|].
  apply IH. apply map_set_distinct. assumption.
Qed.

(** [new Map(...)] has pairwise distinct keys, whatever the entries. *)
Lemma map_new_distinct (entries : list (JsVal * JsVal)) :
  distinct_keys (map_keys (map_new entries)) = true.
Proof. apply set_all_distinct. reflexivity. Qed.

Lemma forEach_set_distinct (rows : list JsVal) : forall m m' : JsMap,
  distinct_keys (map_keys m) = true ->
  forEach_set m rows = Ok m' ->
  distinct_keys (map_keys m') = true.
Proof.
  induction rows as [|a rows IH]; intros m m' Hm; simpl.
  - intros H; inversion H; subst; assumption.
  - destruct (getProp a "id") as [key|]; [|discriminate].
    apply IH. apply map_set_distinct. assumption.
Qed.

Lemma forEach_set_length (rows : list JsVal) : forall m m' : JsMap,
  forEach_set m rows = Ok m' ->
  (List.length m' <= List.length m + List.length rows)%nat.
Proof.
  assert (Hset : forall (m : JsMap) k v,
            (List.length (map_set m k v) <= S (List.length m))%nat).
  { induction m as [|[k0 v0] m IHm]; intros k v; simpl; [lia|].
    destruct (sameValueZero k0 k); simpl; [lia|]. specialize (IHm k v). lia. }
  induction rows as [|a rows IH]; intros m m'; simpl.
  - intros H; inversion H; subst; lia.
  - destruct (getProp a "id") as [key|]; [|discriminate].
    intros H. apply IH in H. specialize (Hset m key a). lia.
Qed.

(** The merge, read through lookups: after it, an identity holds the last
    merged row of that identity, and an identity that no merged row has
    holds what it held before (or stays absent). *)
Lemma forEach_set_get (rows : list JsVal) : forall (m m' : JsMap) (k : JsVal),
  forEach_set m rows = Ok m' ->
  map_get m' k =
  match latest_row rows k with
  | Some a => Some a
  | None => map_get m k
  end.
Proof.
  induction rows as [|a rows IH]; intros m m' k; simpl.
  - intros H; inversion H; reflexivity.
  - destruct (getProp a "id") as [key|]; [|discriminate].
    intros H. rewrite (IH _ _ k H).
    destruct (latest_row rows k); [reflexivity|].
    rewrite map_get_set. destruct (sameValueZero key k); reflexivity.
Qed.

(** After the merge every merged identity is a key of the map. *)
Lemma forEach_set_has_ids (rows : list JsVal) : forall (m m' : JsMap) (ids : list JsVal),
  artwork_ids rows = Ok ids ->
  forEach_set m rows = Ok m' ->
  forall k, In k ids -> has_key (map_keys m') k = true.
Proof.
  induction rows as [|a rows IH]; intros m m' ids; simpl.
  - intros H _; inversion H. intros k [].
  - destruct (getProp a "id") as [key|]; [|discriminate].
    destruct (artwork_ids rows) as [ids'|] eqn:Hids; [|discriminate].
    intros H Hrun; inversion H; subst.
    intros k [<-|Hk]; [|exact (IH _ _ ids' eq_refl Hrun k Hk)].
    destruct (forEach_set_extends rows _ m' Hrun) as (fresh & -> & _).
    rewrite has_key_app, map_set_keys.
    destruct (has_key (map_keys m) key) eqn:Hpresent.
    + rewrite Hpresent. reflexivity.
    + rewrite has_key_app. simpl. rewrite sameValueZero_refl.
      rewrite orb_true_r. reflexivity.
Qed.

(** In a map with pairwise distinct keys, the key of an entry looks up
    that entry's value. *)
Lemma map_get_nth (m : JsMap) : forall (i : nat) (k v : JsVal),
  distinct_keys (map_keys m) = true ->
  nth_error m i = Some (k, v) ->
  map_get m k = Some v.
Proof.
  induction m as [|[k0 v0] m IH]; intros i k v Hdist Hi; [destruct i; discriminate|].
  simpl in Hdist. apply andb_true_iff in Hdist as [Hk0 Hdist].
  apply negb_true_iff in Hk0.
  destruct i as [|i]; simpl in Hi.
  - inversion Hi; subst. simpl. rewrite sameValueZero_refl. reflexivity.
  - simpl.
    assert (Hin : In k (map_keys m)).
    { apply nth_error_In in Hi. exact (in_map fst m (k, v) Hi). }
    rewrite sameValueZero_sym, (has_key_false _ _ _ Hk0 Hin).
    exact (IH i k v Hdist Hi).
Qed.

(** [append_new] keeps the keys it starts from in place and puts after
    them only identities of [ids] that were not among them. *)
Lemma append_new_prefix (ids : list JsVal) : forall keys : list JsVal,
  exists fresh,
    append_new keys ids = keys ++ fresh /\
    forall k, In k fresh -> has_key keys k = false /\ In k ids.
Proof.
  induction ids as [|id ids IH]; intros keys; simpl.
  - exists []. rewrite app_nil_r. split; [reflexivity|]. intros k [].
  - destruct (has_key keys id) eqn:Hpresent.
    + destruct (IH keys) as (fresh & -> & Hfresh).
      exists fresh. split; [reflexivity|].
      intros k Hk. destruct (Hfresh k Hk). auto.
    + destruct (IH (keys ++ [id])) as (fresh & -> & Hfresh).
      exists (id :: fresh). split; [rewrite <- app_assoc; reflexivity|].
      intros k [<-|Hk]; [auto|].
      destruct (Hfresh k Hk) as [Habsent Hin].
      rewrite has_key_app in Habsent. apply orb_false_iff in Habsent as [Habsent _]. auto.
Qed.

(** The key order after the merge, exactly. *)
Lemma forEach_set_keys (rows : list JsVal) : forall (m m' : JsMap) (ids : list JsVal),
  artwork_ids rows = Ok ids ->
  forEach_set m rows = Ok m' ->
  map_keys m' = append_new (map_keys m) ids.
Proof.
  induction rows as [|a rows IH]; intros m m' ids; simpl.
  - intros H Hrun; inversion H; inversion Hrun; reflexivity.
  - destruct (getProp a "id") as [key|]; [|discriminate].
    destruct (artwork_ids rows) as [ids'|] eqn:Hids; [|discriminate].
    intros H Hrun; inversion H; subst. simpl.
    rewrite <- (map_set_keys m key a). exact (IH _ _ ids' eq_refl Hrun).
Qed.

(** C10.  The merge of [handleRowSelection] (copy the selection map, then
    [set] every row under its [id]) never moves an entry.  The key order
    after the merge is the old key order followed by the identities of
    the merged rows that were not selected, each once, in the order they
    are first seen; every identity of a merged row is selected
    afterwards.  An identity that was selected stays at its position, and
    its value there is the last merged row of that identity, or the old
    value when no merged row has it; a newly seen identity holds the last
    merged row that has it.  In particular, merging rows that are all
    selected already leaves the order of the selection as it was. *)
Theorem merge_keeps_positions :
  forall (m m' : JsMap) (rows : list JsVal),
    distinct_keys (map_keys m) = true ->
    forEach_set (map_new m) rows = Ok m' ->
    exists (ids fresh : list JsVal),
      artwork_ids rows = Ok ids /\
      map_keys m' = append_new (map_keys m) ids /\
      map_keys m' = map_keys m ++ fresh /\
      (forall k, In k fresh -> has_key (map_keys m) k = false /\ In k ids) /\
      (forall k, In k ids -> has_key (map_keys m') k = true) /\
      (forall i k v, nth_error m i = Some (k, v) ->
         nth_error m' i
           = Some (k, match latest_row rows k with Some a => a | None => v end)) /\
      (forall k, has_key (map_keys m) k = false -> map_get m' k = latest_row rows k) /\
      ((forall k, In k ids -> has_key (map_keys m) k = true) ->
       map_keys m' = map_keys m).
Proof.
  intros m m' rows Hdist Hrun.
  rewrite (map_new_copy m Hdist) in Hrun.
  destruct (forEach_set_Ok rows m m' Hrun) as [ids Hids].
  pose proof (forEach_set_keys rows m m' ids Hids Hrun) as Hkeys.
  destruct (append_new_prefix ids (map_keys m)) as (fresh & Hprefix & Hfresh).
  pose proof (forEach_set_distinct rows m m' Hdist Hrun) as Hdist'.
  exists ids, fresh.
  split; [exact Hids|]. split; [exact Hkeys|].
  split; [rewrite Hkeys; exact Hprefix|]. split; [exact Hfresh|].
  split; [exact (forEach_set_has_ids rows m m' ids Hids Hrun)|]. split; [|split].
  - intros i k v Hi.
    destruct (forEach_set_extends rows m m' Hrun) as (_ & _ & _ & Hnth).
    destruct (Hnth i k v Hi) as (v' & Hi' & _).
    pose proof (map_get_nth m' i k v' Hdist' Hi') as Hget'.
    rewrite (forEach_set_get rows m m' k Hrun) in Hget'.
    rewrite (map_get_nth m i k v Hdist Hi) in Hget'.
    rewrite Hi'. destruct (latest_row rows k); inversion Hget'; reflexivity.
  - intros k Habsent.
    rewrite (forEach_set_get rows m m' k Hrun), (map_get_absent m k Habsent).
    destruct (latest_row rows k); reflexivity.
  - intros Hall. exact (forEach_set_same_keys rows m m' ids Hids Hall Hrun).
Qed.

(** Rows 1..3 are selected and rows 2..5, fetched again, are merged: rows
    2 and 3 stay second and third, rows 4 and 5 follow. *)
Lemma merge_keeps_positions_witness :
  (distinct_keys (map_keys (combine [VNum 1; VNum 2; VNum 3] (sample_rows 1 3))) = true /\
   forEach_set (map_new (combine [VNum 1; VNum 2; VNum 3] (sample_rows 1 3))) (sample_rows 2 4)
     = Ok (combine [VNum 1; VNum 2; VNum 3; VNum 4; VNum 5] (sample_rows 1 5))) /\
  exists (ids fresh : list JsVal),
    artwork_ids (sample_rows 2 4) = Ok ids /\
    map_keys (combine [VNum 1; VNum 2; VNum 3; VNum 4; VNum 5] (sample_rows 1 5))
      = append_new (map_keys (combine [VNum 1; VNum 2; VNum 3] (sample_rows 1 3))) ids /\
    map_keys (combine [VNum 1; VNum 2; VNum 3; VNum 4; VNum 5] (sample_rows 1 5))
      = map_keys (combine [VNum 1; VNum 2; VNum 3] (sample_rows 1 3)) ++ fresh /\
    (forall k, In k fresh ->
       has_key (map_keys (combine [VNum 1; VNum 2; VNum 3] (sample_rows 1 3))) k = false /\
       In k ids) /\
    (forall k, In k ids ->
       has_key (map_keys (combine [VNum 1; VNum 2; VNum 3; VNum 4; VNum 5] (sample_rows 1 5))) k
         = true) /\
    (forall i k v,
       nth_error (combine [VNum 1; VNum 2; VNum 3] (sample_rows 1 3)) i = Some (k, v) ->
       nth_error (combine [VNum 1; VNum 2; VNum 3; VNum 4; VNum 5] (sample_rows 1 5)) i
         = Some (k, match latest_row (sample_rows 2 4) k with Some a => a | None => v end)) /\
    (forall k,
       has_key (map_keys (combine [VNum 1; VNum 2; VNum 3] (sample_rows 1 3))) k = false ->
       map_get (combine [VNum 1; VNum 2; VNum 3; VNum 4; VNum 5] (sample_rows 1 5)) k
         = latest_row (sample_rows 2 4) k) /\
    ((forall k, In k ids ->
        has_key (map_keys (combine [VNum 1; VNum 2; VNum 3] (sample_rows 1 3))) k = true) ->
     map_keys (combine [VNum 1; VNum 2; VNum 3; VNum 4; VNum 5] (sample_rows 1 5))
       = map_keys (combine [VNum 1; VNum 2; VNum 3] (sample_rows 1 3))).
Proof.
  assert (Hdist : distinct_keys
                    (map_keys (combine [VNum 1; VNum 2; VNum 3] (sample_rows 1 3))) = true)
    by reflexivity.
  assert (Hrun : forEach_set (map_new (combine [VNum 1; VNum 2; VNum 3] (sample_rows 1 3)))
                             (sample_rows 2 4)
                 = Ok (combine [VNum 1; VNum 2; VNum 3; VNum 4; VNum 5] (sample_rows 1 5)))
    by reflexivity.
  split; [split; assumption|].
  exact (merge_keeps_positions _ _ _ Hdist Hrun).
Defined.

(** ** Last write wins, and merging twice changes nothing *)

(** The merge of [handleRowSelection] is last-write-wins per identity:
    after merging [rows] into a selection, every identity reads the last
    row of [rows] that has it, and identities that no merged row has read
    exactly what they read before. *)
Theorem merge_last_write_wins :
  forall (m m' : JsMap) (rows : list JsVal) (k : JsVal),
    distinct_keys (map_keys m) = true ->
    forEach_set (map_new m) rows = Ok m' ->
    map_get m' k =
    match latest_row rows k with
    | Some a => Some a
    | None => map_get m k
    end.
Proof.
  intros m m' rows k Hdist Hrun.
  rewrite (map_new_copy m Hdist) in Hrun.
  exact (forEach_set_get rows m m' k Hrun).
Qed.

Lemma merge_last_write_wins_witness :
  (distinct_keys (map_keys (combine [VNum 1; VNum 2; VNum 3] (sample_rows 1 3))) = true /\
   forEach_set (map_new (combine [VNum 1; VNum 2; VNum 3] (sample_rows 1 3))) (sample_rows 2 4)
     = Ok (combine [VNum 1; VNum 2; VNum 3; VNum 4; VNum 5] (sample_rows 1 5))) /\
  map_get (combine [VNum 1; VNum 2; VNum 3; VNum 4; VNum 5] (sample_rows 1 5)) (VNum 3) =
  match latest_row (sample_rows 2 4) (VNum 3) with
  | Some a => Some a
  | None => map_get (combine [VNum 1; VNum 2; VNum 3] (sample_rows 1 3)) (VNum 3)
  end.
Proof.
  split; [split; reflexivity|].
  exact (merge_last_write_wins (combine [VNum 1; VNum 2; VNum 3] (sample_rows 1 3))
           (combine [VNum 1; VNum 2; VNum 3; VNum 4; VNum 5] (sample_rows 1 5))
           (sample_rows 2 4) (VNum 3) eq_refl eq_refl).
Defined.

(** The merge is idempotent: merging the same rows a second time gives
    back the same map, same entries in the same order, also when several
    of the rows share an identity. *)
Theorem merge_idempotent :
  forall (m m' : JsMap) (rows : list JsVal),
    distinct_keys (map_keys m) = true ->
    forEach_set (map_new m) rows = Ok m' ->
    forEach_set (map_new m') rows = Ok m'.
Proof.
  intros m m' rows Hdist Hrun.
  rewrite (map_new_copy m Hdist) in Hrun.
  pose proof (forEach_set_distinct rows m m' Hdist Hrun) as Hdist'.
  rewrite (map_new_copy m' Hdist').
  destruct (forEach_set_Ok rows m m' Hrun) as [ids Hids].
  destruct (forEach_set m' rows) as [m''|e] eqn:Hrun'.
  2:{ rewrite (forEach_set_set_all rows m' ids Hids) in Hrun'. discriminate. }
  f_equal. apply map_ext.
  - apply (forEach_set_same_keys rows m' m'' ids Hids); [|assumption].
    exact (forEach_set_has_ids rows m m' ids Hids Hrun).
  - exact (forEach_set_distinct rows m' m'' Hdist' Hrun').
  - intros k. rewrite (forEach_set_get rows m' m'' k Hrun').
    rewrite (forEach_set_get rows m m' k Hrun).
    destruct (latest_row rows k); reflexivity.
Qed.

Lemma merge_idempotent_witness :
  (distinct_keys (map_keys (combine [VNum 1; VNum 2; VNum 3] (sample_rows 1 3))) = true /\
   forEach_set (map_new (combine [VNum 1; VNum 2; VNum 3] (sample_rows 1 3))) (sample_rows 2 4)
     = Ok (combine [VNum 1; VNum 2; VNum 3; VNum 4; VNum 5] (sample_rows 1 5))) /\
  forEach_set (map_new (combine [VNum 1; VNum 2; VNum 3; VNum 4; VNum 5] (sample_rows 1 5)))
              (sample_rows 2 4)
    = Ok (combine [VNum 1; VNum 2; VNum 3; VNum 4; VNum 5] (sample_rows 1 5)).
Proof.
  split; [split; reflexivity|].
  exact (merge_idempotent (combine [VNum 1; VNum 2; VNum 3] (sample_rows 1 3))
           (combine [VNum 1; VNum 2; VNum 3; VNum 4; VNum 5] (sample_rows 1 5))
           (sample_rows 2 4) eq_refl eq_refl).
Defined.

(** ** What the handlers store as selection *)

Lemma In_SetSelectedArtworks_requests (m : JsMap) (ps : list Z) :
  ~ In (SetSelectedArtworks m) (List.map Request ps).
Proof. induction ps as [|p ps IH]; simpl; [tauto|]. intros [H|H]; [discriminate|auto]. Qed.

(** Bulk selection only ever adds: the map [handleRowSelection] stores
    has pairwise distinct keys and begins with the keys that were
    selected, in their order; no identity is deselected or moved,
    whichever path the handler took. *)
Theorem handleRowSelection_never_deselects :
  forall (fuel : nat) (remote : Remote) (s : State) (r : Result unit) (tr : list Effect)
         (m : JsMap),
    distinct_keys (map_keys (selectedArtworks s)) = true ->
    handleRowSelection fuel remote s = Some (r, tr) ->
    In (SetSelectedArtworks m) tr ->
    distinct_keys (map_keys m) = true /\
    exists fresh, map_keys m = map_keys (selectedArtworks s) ++ fresh.
Proof.
  intros fuel remote s r tr m Hdist Hrun Hin.
  destruct (handleRowSelection_trace fuel remote s r tr Hrun)
    as (k & [-> | (rows & m0 & _ & Hmerge & ->)]).
  - exfalso. exact (In_SetSelectedArtworks_requests _ _ Hin).
  - apply in_app_or in Hin as [Hin|[Hin|[Hin|[]]]].
    + exfalso. exact (In_SetSelectedArtworks_requests _ _ Hin).
    + inversion Hin; subst m0. rewrite (map_new_copy _ Hdist) in Hmerge. split.
      * exact (forEach_set_distinct rows _ m Hdist Hmerge).
      * destruct (forEach_set_extends rows _ m Hmerge) as (fresh & Hkeys & _). eauto.
    + discriminate.
Qed.

Lemma handleRowSelection_never_deselects_witness :
  (distinct_keys (map_keys (selectedArtworks (sample_state 20))) = true /\
   handleRowSelection 2 sample_remote (sample_state 20)
     = Some (Ok tt, [Request 2;
                     SetSelectedArtworks
                       (combine (List.map VNum (List.map Z.of_nat (seq 1 20))) (sample_rows 1 20));
                     SetShowFilter false])) /\
  distinct_keys
    (map_keys (combine (List.map VNum (List.map Z.of_nat (seq 1 20))) (sample_rows 1 20))) = true /\
  exists fresh,
    map_keys (combine (List.map VNum (List.map Z.of_nat (seq 1 20))) (sample_rows 1 20))
      = map_keys (selectedArtworks (sample_state 20)) ++ fresh.
Proof.
  assert (Hrun : handleRowSelection 2 sample_remote (sample_state 20)
                 = Some (Ok tt, [Request 2;
                                 SetSelectedArtworks
                                   (combine (List.map VNum (List.map Z.of_nat (seq 1 20)))
                                            (sample_rows 1 20));
                                 SetShowFilter false])) by reflexivity.
  split; [split; [reflexivity|exact Hrun]|].
  apply (handleRowSelection_never_deselects 2 sample_remote (sample_state 20) _ _ _
           eq_refl Hrun).
  simpl. auto.
Defined.

(** ** Manual selection changes *)

Lemma forEach_set_throws (rows : list JsVal) : forall m : JsMap,
  (exists a, In a rows /\ (a = VUndefined \/ a = VNull)) ->
  forEach_set m rows = Throw TypeError.
Proof.
  induction rows as [|a rows IH]; intros m (b & Hin & Hb); [destruct Hin|].
  simpl. destruct (getProp a "id") as [key|e] eqn:Hid.
  - apply IH. exists b. split; [|assumption].
    destruct Hin as [->|Hin]; [|assumption].
    destruct Hb as [-> | ->]; discriminate.
  - apply getProp_Throw in Hid as [-> _]. reflexivity.
Qed.

Lemma forEach_set_completes (rows : list JsVal) : forall m : JsMap,
  (forall a, In a rows -> a <> VUndefined /\ a <> VNull) ->
  exists m', forEach_set m rows = Ok m'.
Proof.
  induction rows as [|a rows IH]; intros m Hall; simpl; [eauto|].
  destruct (getProp a "id") as [key|e] eqn:Hid.
  - apply IH. intros b Hb. apply Hall. simpl; auto.
  - apply getProp_Throw in Hid as [_ Hnull].
    destruct (Hall a (or_introl eq_refl)) as [H1 H2]. destruct Hnull; contradiction.
Qed.

(** [onSelectionChange] by its input.  If the reported rows hold an
    [undefined] or [null], reading its [id] throws a [TypeError] and no
    setter is called, so the selection stays.  Otherwise the handler
    completes and stores a map with pairwise distinct keys and at most as
    many entries as rows, in which every identity holds the last reported
    row of that identity and nothing else is selected. *)
Theorem onSelectionChange_completion :
  forall (X : list JsVal),
    ((exists a, In a X /\ (a = VUndefined \/ a = VNull)) ->
     onSelectionChange X = Some (Throw TypeError, [])) /\
    ((forall a, In a X -> a <> VUndefined /\ a <> VNull) ->
     exists m,
       onSelectionChange X = Some (Ok tt, [SetSelectedArtworks m]) /\
       distinct_keys (map_keys m) = true /\
       (List.length m <= List.length X)%nat /\
       forall k, map_get m k = latest_row X k).
Proof.
  intros X. unfold onSelectionChange.
  change (map_new []) with (@nil (JsVal * JsVal)). split.
  - intros Hbad. rewrite (forEach_set_throws X [] Hbad). reflexivity.
  - intros Hgood. destruct (forEach_set_completes X [] Hgood) as [m Hrun].
    exists m. rewrite Hrun. split; [reflexivity|]. split; [|split].
    + exact (forEach_set_distinct X [] m eq_refl Hrun).
    + exact (forEach_set_length X [] m Hrun).
    + intros k. rewrite (forEach_set_get X [] m k Hrun).
      destruct (latest_row X k); reflexivity.
Qed.

(** ** The rows a bulk fetch returns *)

Lemma js_slice0_nonneg (a : list JsVal) (e : Z) :
  0 <= e -> js_slice0 a e = firstn (Z.to_nat e) a.
Proof.
  intros He. unfold js_slice0.
  destruct (Z.ltb_spec e 0); [lia|].
  destruct (Z.le_ge_cases e (Z.of_nat (List.length a))) as [Hle|Hge].
  - rewrite Z.min_l by assumption. reflexivity.
  - rewrite Z.min_r by assumption. rewrite Nat2Z.id.
    rewrite !firstn_all2 by lia. reflexivity.
Qed.

(** [concat] only appends: the accumulation buffer always begins with
    what it began with. *)
Lemma fold_js_concat_prefix (vs : list JsVal) : forall acc : list JsVal,
  exists rest, fold_left js_concat vs acc = acc ++ rest.
Proof.
  induction vs as [|v vs IH]; intros acc; simpl.
  - exists []. symmetry. apply app_nil_r.
  - destruct (IH (js_concat acc v)) as [rest ->].
    unfold js_concat. destruct v; rewrite <- app_assoc; eauto.
Qed.

(** A bulk fetch for a non-negative count never returns more rows than
    asked for.  If the count is at least the number of loaded rows, the
    result begins with the whole loaded page; if it is at most that
    number, the result is exactly the first [rowsNeeded] loaded rows and
    no request is made. *)
Theorem fetchAdditionalPages_result_bounds :
  forall (fuel : nat) (remote : Remote) (s : State) (rowsNeeded page : Z)
         (rows : list JsVal) (tr : list Effect),
    0 <= rowsNeeded ->
    fetchAdditionalPages fuel remote s rowsNeeded page = Some (Ok rows, tr) ->
    Z.of_nat (List.length rows) <= rowsNeeded /\
    (Z.of_nat (List.length (artworks s)) <= rowsNeeded ->
     exists rest, rows = artworks s ++ rest) /\
    (rowsNeeded <= Z.of_nat (List.length (artworks s)) ->
     rows = firstn (Z.to_nat rowsNeeded) (artworks s) /\ tr = []).
Proof.
  intros fuel remote s rowsNeeded page rows tr Hn Hrun.
  rewrite fetchAdditionalPages_unfold in Hrun.
  destruct (while_loop fuel remote rowsNeeded (totalRecords s) (artworks s) (page + 1))
    as [[[rows0|e] tr0]|] eqn:Hloop; try discriminate.
  inversion Hrun; subst rows tr. clear Hrun.
  rewrite js_slice0_nonneg by assumption.
  split; [|split].
  - rewrite length_firstn. lia.
  - intros Hge.
    destruct (while_loop_run _ _ _ _ _ _ _ _ Hloop) as (k & _ & _ & -> & _).
    destruct (fold_js_concat_prefix
                (List.map (page_data remote) (pages_from (page + 1) k)) (artworks s))
      as [rest ->].
    rewrite firstn_app, firstn_all2 by lia. eauto.
  - intros Hle.
    rewrite while_loop_done in Hloop.
    + inversion Hloop; subst. auto.
    + apply andb_false_iff. left. apply Z.ltb_ge. assumption.
Qed.

Lemma fetchAdditionalPages_result_bounds_witness :
  (0 <= 20 /\
   fetchAdditionalPages 2 sample_remote (sample_state 20) 20 1
     = Some (Ok (sample_rows 1 20), [Request 2])) /\
  Z.of_nat (List.length (sample_rows 1 20)) <= 20 /\
  (Z.of_nat (List.length (artworks (sample_state 20))) <= 20 ->
   exists rest, sample_rows 1 20 = artworks (sample_state 20) ++ rest) /\
  (20 <= Z.of_nat (List.length (artworks (sample_state 20))) ->
   sample_rows 1 20 = firstn (Z.to_nat 20) (artworks (sample_state 20)) /\
   [Request 2] = []).
Proof.
  assert (Hn : 0 <= 20) by lia.
  assert (Hrun : fetchAdditionalPages 2 sample_remote (sample_state 20) 20 1
                 = Some (Ok (sample_rows 1 20), [Request 2])) by reflexivity.
  split; [split; assumption|].
  exact (fetchAdditionalPages_result_bounds 2 sample_remote (sample_state 20) 20 1
           (sample_rows 1 20) [Request 2] Hn Hrun).
Defined.

(** ** Bulk fetch against full pages *)

(** The loop against a remote source whose pages within the bound all
    carry 12 rows. *)
Lemma while_loop_full_pages (fuel : nat) :
  forall (remote : Remote) (rowsNeeded total : Z) (fetched : list JsVal) (nextPage : Z),
    (forall p, nextPage <= p <= total / 12 ->
       exists r rows, page_result (remote p) = Ok (VArr r rows) /\
                      List.length rows = 12%nat) ->
    (Z.to_nat (total / 12 + 1 - nextPage) <= fuel)%nat ->
    exists (rows : list JsVal) (k : nat),
      while_loop fuel remote rowsNeeded total fetched nextPage
        = Some (Ok rows, List.map Request (pages_from nextPage k)) /\
      Z.of_nat (List.length rows) = Z.of_nat (List.length fetched) + 12 * Z.of_nat k /\
      Z.of_nat k <= Z.max 0 (total / 12 + 1 - nextPage) /\
      (Z.of_nat (List.length rows) < rowsNeeded ->
       Z.of_nat k = Z.max 0 (total / 12 + 1 - nextPage)) /\
      (0 < Z.of_nat k ->
       Z.of_nat (List.length fetched) + 12 * (Z.of_nat k - 1) < rowsNeeded).
Proof.
  induction fuel as [|fuel IH]; intros remote rowsNeeded total fetched nextPage Hfull Hfuel.
  - rewrite while_loop_O.
    destruct (_ && _) eqn:Hcond.
    + apply andb_true_iff in Hcond as [_ Hpage].
      apply page_within_total_div in Hpage. lia.
    + exists fetched, O. simpl. split; [reflexivity|]. split; [lia|]. split; [lia|].
      split; [|lia]. intros Hlt.
      apply andb_false_iff in Hcond as [Hc|Hc].
      * apply Z.ltb_ge in Hc. lia.
      * destruct (Z.le_gt_cases nextPage (total / 12)) as [Hle|Hgt]; [|lia].
        apply page_within_total_div in Hle. congruence.
  - rewrite while_loop_S.
    destruct (_ && _) eqn:Hcond.
    + apply andb_true_iff in Hcond as [Hlen Hpage].
      apply Z.ltb_lt in Hlen. apply page_within_total_div in Hpage.
      destruct (Hfull nextPage ltac:(lia)) as (r & rs & -> & Hrs).
      destruct (IH remote rowsNeeded total (js_concat fetched (VArr r rs)) (nextPage + 1))
        as (rows & k & -> & Hrows & Hk & Hstop & Hmin).
      { intros p Hp. apply Hfull. lia. }
      { lia. }
      unfold js_concat in Hrows, Hmin. rewrite length_app, Hrs in Hrows, Hmin.
      exists rows, (S k). split; [reflexivity|].
      split; [lia|]. split; [lia|]. split; [intros Hlt; specialize (Hstop Hlt); lia|].
      intros _. destruct k as [|k]; [lia|]. specialize (Hmin ltac:(lia)). lia.
    + exists fetched, O. simpl. split; [reflexivity|]. split; [lia|]. split; [lia|].
      split; [|lia]. intros Hlt.
      apply andb_false_iff in Hcond as [Hc|Hc].
      * apply Z.ltb_ge in Hc. lia.
      * destruct (Z.le_gt_cases nextPage (total / 12)) as [Hle|Hgt]; [|lia].
        apply page_within_total_div in Hle. congruence.
Qed.

(** Against a remote source whose pages up to [totalRecords / 12] all
    carry 12 rows, a bulk fetch completes and requests as few pages as
    possible: it stops at the first page that fills the count, and short
    of the count only at the bound.  So it returns exactly [rowsNeeded]
    rows when the loaded rows plus the whole pages that are left cover
    the count, and otherwise the loaded rows plus 12 per page left; the
    rows of a partial last page are never part of it. *)
Theorem fetchAdditionalPages_full_pages :
  forall (fuel : nat) (remote : Remote) (s : State) (rowsNeeded page : Z),
    0 <= rowsNeeded ->
    (pages_left (totalRecords s) page <= fuel)%nat ->
    (forall p, page < p <= totalRecords s / 12 ->
       exists r rows, page_result (remote p) = Ok (VArr r rows) /\
                      List.length rows = 12%nat) ->
    exists (rows : list JsVal) (k : nat),
      fetchAdditionalPages fuel remote s rowsNeeded page
        = Some (Ok rows, List.map Request (pages_from (page + 1) k)) /\
      (k <= pages_left (totalRecords s) page)%nat /\
      (0 < Z.of_nat k ->
       Z.of_nat (List.length (artworks s)) + 12 * (Z.of_nat k - 1) < rowsNeeded) /\
      Z.of_nat (List.length rows)
        = Z.min rowsNeeded
                (Z.of_nat (List.length (artworks s))
                 + 12 * Z.of_nat (pages_left (totalRecords s) page)).
Proof.
  intros fuel remote s rowsNeeded page Hn Hfuel Hfull.
  rewrite <- pages_left_fuel in Hfuel.
  destruct (while_loop_full_pages fuel remote rowsNeeded (totalRecords s) (artworks s)
              (page + 1)) as (rows & k & Hrun & Hrows & Hk & Hstop & Hmin).
  { intros p Hp. apply Hfull. lia. }
  { assumption. }
  exists (js_slice0 rows rowsNeeded), k.
  rewrite fetchAdditionalPages_unfold, Hrun.
  split; [reflexivity|].
  assert (Hleft : Z.of_nat (pages_left (totalRecords s) page)
                  = Z.max 0 (totalRecords s / 12 + 1 - (page + 1))).
  { unfold pages_left. lia. }
  split; [lia|]. split; [exact Hmin|].
  rewrite js_slice0_nonneg, length_firstn by assumption.
  destruct (Z.lt_ge_cases (Z.of_nat (List.length rows)) rowsNeeded) as [Hlt|Hge].
  - specialize (Hstop Hlt). lia.
  - lia.
Qed.

Lemma fetchAdditionalPages_full_pages_witness :
  (0 <= 40 /\
   (pages_left (totalRecords (sample_state 40)) 1 <= 2)%nat /\
   (forall p, 1 < p <= totalRecords (sample_state 40) / 12 ->
      exists r rows, page_result (sample_remote p) = Ok (VArr r rows) /\
                     List.length rows = 12%nat)) /\
  exists (rows : list JsVal) (k : nat),
    fetchAdditionalPages 2 sample_remote (sample_state 40) 40 1
      = Some (Ok rows, List.map Request (pages_from (1 + 1) k)) /\
    (k <= pages_left (totalRecords (sample_state 40)) 1)%nat /\
    (0 < Z.of_nat k ->
     Z.of_nat (List.length (artworks (sample_state 40))) + 12 * (Z.of_nat k - 1) < 40) /\
    Z.of_nat (List.length rows)
      = Z.min 40 (Z.of_nat (List.length (artworks (sample_state 40)))
                  + 12 * Z.of_nat (pages_left (totalRecords (sample_state 40)) 1)).
Proof.
  assert (Hn : 0 <= 40) by lia.
  assert (Hfuel : (pages_left (totalRecords (sample_state 40)) 1 <= 2)%nat)
    by (vm_compute; lia).
  assert (Hfull : forall p, 1 < p <= totalRecords (sample_state 40) / 12 ->
            exists r rows, page_result (sample_remote p) = Ok (VArr r rows) /\
                           List.length rows = 12%nat).
  { intros p Hp. change (totalRecords (sample_state 40) / 12) with 2 in Hp.
    assert (p = 2) as -> by lia.
    exists 22%positive, (sample_rows 13 12). split; reflexivity. }
  split; [split; [exact Hn|split; [exact Hfuel|exact Hfull]]|].
  exact (fetchAdditionalPages_full_pages 2 sample_remote (sample_state 40) 40 1
           Hn Hfuel Hfull).
Defined.

(** ** All or nothing *)

(** With fuel for the pages the bound allows, [handleRowSelection]
    returns. *)
Lemma handleRowSelection_returns fuel remote s :
  (pages_left (totalRecords s) (currentPage s) <= fuel)%nat ->
  exists r tr, handleRowSelection fuel remote s = Some (r, tr).
Proof.
  intros Hfuel.
  destruct (rowsToFetch s) as [n|] eqn:Hsome.
  2:{ unfold handleRowSelection. rewrite Hsome. unfold ret. eauto. }
  destruct (Z.eq_dec n 0) as [->|Hnz].
  { unfold handleRowSelection. rewrite Hsome. unfold ret. simpl. eauto. }
  rewrite (handleRowSelection_run fuel remote s n Hsome Hnz).
  unfold selectedRows.
  destruct (n >? Z.of_nat (List.length (artworks s))).
  - rewrite fetchAdditionalPages_unfold.
    rewrite <- pages_left_fuel in Hfuel.
    destruct (while_loop_terminates fuel remote n (totalRecords s) (artworks s)
                (currentPage s + 1) Hfuel) as [[[rows|e] tr] ->]; [|eauto].
    destruct (forEach_set _ _); eauto.
  - unfold ret. destruct (forEach_set _ _); eauto.
Qed.

(** [handleRowSelection] updates the state all at once or not at all.
    A run that completes has either done nothing (no count) or called
    exactly [setSelectedArtworks] and [setShowFilter(false)], after its
    last request.  A run that throws, be it a failed fetch or a
    [TypeError] on a row without readable [id], has called no setter, and
    the next render sees the state as it was. *)
Theorem handleRowSelection_all_or_nothing :
  forall (fuel : nat) (remote : Remote) (s : State),
    (pages_left (totalRecords s) (currentPage s) <= fuel)%nat ->
    exists r tr,
      handleRowSelection fuel remote s = Some (r, tr) /\
      match r with
      | Ok _ =>
          setter_calls tr = [] \/
          exists m, setter_calls tr = [SetSelectedArtworks m; SetShowFilter false]
      | Throw _ =>
          setter_calls tr = [] /\
          next_state s (handleRowSelection fuel remote s) = Some s
      end.
Proof.
  intros fuel remote s Hfuel.
  destruct (handleRowSelection_returns fuel remote s Hfuel) as (r & tr & Hrun).
  exists r, tr. split; [assumption|].
  destruct (handleRowSelection_trace fuel remote s r tr Hrun)
    as (k & [Htr | (rows & m & Hr & _ & Htr)]).
  - assert (Hnone : setter_calls tr = [])
      by (rewrite Htr; apply setter_calls_map_Request).
    destruct r; [auto|].
    split; [assumption|].
    unfold next_state. rewrite Hrun, Htr. apply apply_effects_map_Request.
  - subst r. right. exists m.
    rewrite Htr, setter_calls_app, setter_calls_map_Request. reflexivity.
Qed.

Lemma handleRowSelection_all_or_nothing_witness :
  (pages_left (totalRecords (sample_state 13)) (currentPage (sample_state 13)) <= 2)%nat /\
  exists r tr,
    handleRowSelection 2 (fun _ => Response (Json body_without_data)) (sample_state 13)
      = Some (r, tr) /\
    match r with
    | Ok _ =>
        setter_calls tr = [] \/
        exists m, setter_calls tr = [SetSelectedArtworks m; SetShowFilter false]
    | Throw _ =>
        setter_calls tr = [] /\
        next_state (sample_state 13)
          (handleRowSelection 2 (fun _ => Response (Json body_without_data)) (sample_state 13))
          = Some (sample_state 13)
    end.
Proof.
  assert (Hfuel : (pages_left (totalRecords (sample_state 13))
                              (currentPage (sample_state 13)) <= 2)%nat)
    by (vm_compute; lia).
  split; [exact Hfuel|].
  exact (handleRowSelection_all_or_nothing 2 (fun _ => Response (Json body_without_data))
           (sample_state 13) Hfuel).
Defined.

(** ** Row offset and page number *)

(** After a page event the row offset is the first row of the page shown,
    [firstRow = (currentPage - 1) * rows], exactly when the reported
    offset is a multiple of the page size; the handler stores the offset
    as reported and does not align it. *)
Theorem handlePageChange_offset_aligned :
  forall (s : State) (event : PageEvent),
    exists s',
      next_state s (handlePageChange event) = Some s' /\
      (firstRow s' = (currentPage s' - 1) * Z.pos (rows event) <->
       first event mod Z.pos (rows event) = 0).
Proof.
  intros s event.
  destruct (handlePageChange_next_state s event) as [Hrun Hnext].
  unfold next_state. rewrite Hrun, Hnext.
  eexists. split; [reflexivity|]. cbn [firstRow currentPage].
  pose proof (Z.div_mod (first event) (Z.pos (rows event)) ltac:(lia)) as Hdm.
  lia.
Qed.

(** ** Failed and wrong-shaped fetches during the bulk selection *)




